(** * Result reporting of the benchmark infrastructure ([infra/report.py])

    A shallow embedding of [BenchmarkRunner] and [BenchmarkReporter]:
    the metadata lines a runner prints, the parser that harvests them from
    result files, the choice of the place a footer is printed to, the walk
    over run directories and the dispatch on the reporting mode.

    Python strings are [string]s whose characters are the code points below
    256; a Python [dict] read as a map is a [gmap]; a [dict] that is iterated
    is an association list in insertion order. *)

From Stdlib Require Import Ascii String.
From stdpp Require Import gmap strings list fin_maps sorting.

Local Open Scope string_scope.

(** ** Python built-ins used by the module *)

Module Py.

(** The line feed and the carriage return. *)
Definition LF : ascii := "010"%char.
Definition CR : ascii := "013"%char.
Definition DQUOTE : ascii := "034"%char.

Definition nl : string := String LF "".
Definition dquote : string := String DQUOTE "".

(** [str.isspace] on one character, for code points below 256: the
    controls 9..13 and 28..31, the space, NEL (133) and NBSP (160). *)
Definition isspace (c : ascii) : bool :=
  let n := nat_of_ascii c in
  ((9 <=? n)%nat && (n <=? 13)%nat)
  || ((28 <=? n)%nat && (n <=? 32)%nat)
  || (n =? 133)%nat || (n =? 160)%nat.

(** [s.rstrip()]: drop the trailing white space. *)
Fixpoint rstrip (s : string) : string :=
  match s with
  | "" => ""
  | String c t =>
      match rstrip t with
      | "" => if isspace c then "" else String c ""
      | r => String c r
      end
  end.

(** [s.startswith(p)]. *)
Fixpoint startswith (s p : string) {struct p} : bool :=
  match p with
  | "" => true
  | String c p' =>
      match s with
      | "" => false
      | String d s' => Ascii.eqb c d && startswith s' p'
      end
  end.

(** [s[n:]]; a slice past the end is the empty string. *)
Fixpoint slice_from (n : nat) (s : string) : string :=
  match n with
  | O => s
  | S n' => match s with "" => "" | String _ t => slice_from n' t end
  end.

(** [s.split(sep, 1)] for a non-empty [sep]: the string itself when [sep]
    does not occur, otherwise what is before and what is after its
    leftmost occurrence. *)
Fixpoint split1 (sep s : string) : list string :=
  if startswith s sep then [""; slice_from (String.length sep) s]
  else
    match s with
    | "" => [""]
    | String c t =>
        match split1 sep t with
        | [a; b] => [String c a; b]
        | _ => [s]
        end
    end.

(** [sub in s]. *)
Fixpoint contains (sub s : string) : bool :=
  startswith s sub
  || match s with "" => false | String _ t => contains sub t end.

(** Iterating over a file opened in text mode: the lines of its content,
    each with its terminator, where ["\n"], ["\r"] and ["\r\n"] all end a
    line and are read as ["\n"] (universal newlines). *)
Fixpoint readlines (s : string) : list string :=
  match s with
  | "" => []
  | String c t =>
      if Ascii.eqb c LF then nl :: readlines t
      else if Ascii.eqb c CR then
        match t with
        | String d t' =>
            if Ascii.eqb d LF then nl :: readlines t' else nl :: readlines t
        | "" => nl :: readlines t
        end
      else
        match readlines t with
        | [] => [String c ""]
        | l :: ls => String c l :: ls
        end
  end.

(** [print(a, b, ...)]: the arguments separated by one space, then a
    line feed. *)
Definition print_text (args : list string) : string :=
  String.concat " " args ++ nl.

(** A character that ends no line. *)
Definition inline_char (c : ascii) : bool :=
  negb (Ascii.eqb c LF) && negb (Ascii.eqb c CR).

Fixpoint inline (s : string) : bool :=
  match s with
  | "" => true
  | String c t => inline_char c && inline t
  end.

End Py.

(** ** Exceptions and outcomes *)

Inductive exn : Type :=
| ValueError
| AttributeError
| NotImplementedError
| FileNotFoundError
| FileExistsError
| IsADirectoryError
| NotADirectoryError
| FatalError (msg : string).

Inductive outcome (A : Type) : Type :=
| Ok (a : A)
| Raise (e : exn).
Arguments Ok {A} a.
Arguments Raise {A} e.

(** ** The file system, as [os] and [open] see it

    A tree of directories and regular files.  A path is resolved one
    component at a time from the root of the tree, for relative and absolute
    paths alike; there are no symbolic links and the names [.] and [..] are
    not interpreted. *)

Module Os.

#[warnings="-register-all"]
Inductive node : Type :=
| File (content : string)
| Dir (entries : gmap string node).

Definition SLASH : ascii := "/"%char.

(** [s.split('/')]. *)
Fixpoint split_slash (s : string) : list string :=
  match s with
  | "" => [""]
  | String c t =>
      if Ascii.eqb c SLASH then "" :: split_slash t
      else
        match split_slash t with
        | [] => [String c ""]
        | h :: r => String c h :: r
        end
  end.

Definition nonempty (s : string) : bool :=
  match s with "" => false | _ => true end.

(** The names a path goes through. *)
Definition components (p : string) : list string :=
  List.filter nonempty (split_slash p).

(** [s.endswith('/')]. *)
Fixpoint ends_slash (s : string) : bool :=
  match s with
  | "" => false
  | String c "" => Ascii.eqb c SLASH
  | String _ t => ends_slash t
  end.

(** [os.path.join(a, b)] of [posixpath]. *)
Definition join (a b : string) : string :=
  if Py.startswith b "/" then b
  else if negb (nonempty a) || ends_slash a then a ++ b
  else a ++ "/" ++ b.

(** [os.path.join(a, *ps)]. *)
Definition join_all (a : string) (ps : list string) : string :=
  fold_left join ps a.

(** Walking down from a node. *)
Fixpoint resolve (cs : list string) (n : node) : outcome node :=
  match cs with
  | [] => Ok n
  | c :: cs' =>
      match n with
      | File _ => Raise NotADirectoryError
      | Dir es =>
          match es !! c with
          | None => Raise FileNotFoundError
          | Some n' => resolve cs' n'
          end
      end
  end.

Definition stat (root : node) (p : string) : outcome node :=
  resolve (components p) root.

(** [os.path.exists(p)]. *)
Definition exists_ (root : node) (p : string) : bool :=
  match stat root p with Ok _ => true | Raise _ => false end.

(** [os.path.isdir(p)]. *)
Definition isdir (root : node) (p : string) : bool :=
  match stat root p with Ok (Dir _) => true | _ => false end.

(** [os.listdir(p)]: the names in a directory, in the order the map
    enumerates them. *)
Definition listdir (root : node) (p : string) : outcome (list string) :=
  match stat root p with
  | Ok (Dir es) => Ok (map_to_list es).*1
  | Ok (File _) => Raise NotADirectoryError
  | Raise e => Raise e
  end.

(** [open(p).read()]. *)
Definition read (root : node) (p : string) : outcome string :=
  match stat root p with
  | Ok (File c) => Ok c
  | Ok (Dir _) => Raise IsADirectoryError
  | Raise e => Raise e
  end.

(** Writing [text] at the end of a file, which is created when only its
    last component is missing: what [open(p, 'a')] followed by writes
    does to the tree. *)
Fixpoint append_at (cs : list string) (text : string) (n : node)
  : outcome node :=
  match cs with
  | [] =>
      match n with
      | File c => Ok (File (c ++ text))
      | Dir _ => Raise IsADirectoryError
      end
  | c :: cs' =>
      match n with
      | File _ => Raise NotADirectoryError
      | Dir es =>
          match es !! c with
          | Some n' =>
              match append_at cs' text n' with
              | Ok n'' => Ok (Dir (<[c := n'']> es))
              | Raise e => Raise e
              end
          | None =>
              match cs' with
              | [] => Ok (Dir (<[c := File text]> es))
              | _ => Raise FileNotFoundError
              end
          end
      end
  end.

Definition append (root : node) (p text : string) : outcome node :=
  append_at (components p) text root.

(** [os.makedirs(p, exist_ok=True)]. *)
Fixpoint makedirs_at (cs : list string) (n : node) : outcome node :=
  match cs with
  | [] =>
      match n with
      | Dir _ => Ok n
      | File _ => Raise FileExistsError
      end
  | c :: cs' =>
      match n with
      | File _ => Raise NotADirectoryError
      | Dir es =>
          match makedirs_at cs' (default (Dir ∅) (es !! c)) with
          | Ok n' => Ok (Dir (<[c := n']> es))
          | Raise e => Raise e
          end
      end
  end.

Definition makedirs (root : node) (p : string) : outcome node :=
  makedirs_at (components p) root.

End Os.

(** ** The world a call runs in, and computations over it *)

(** What [sys.stdout] may be bound to: the terminal, the file object a
    reporter was given, or a file opened by path. *)
Inductive stream : Type :=
| Console
| Sink
| ToFile (path : string).

Inductive level : Type := DEBUG | WARNING.

Record world : Type := World {
  fs : Os.node;
  console : string;
  sink : string;
  sys_stdout : stream;
  log : list (level * string)
}.

Definition set_fs (n : Os.node) (w : world) : world :=
  World n (console w) (sink w) (sys_stdout w) (log w).
Definition set_console (s : string) (w : world) : world :=
  World (fs w) s (sink w) (sys_stdout w) (log w).
Definition set_sink (s : string) (w : world) : world :=
  World (fs w) (console w) s (sys_stdout w) (log w).
Definition set_stdout (s : stream) (w : world) : world :=
  World (fs w) (console w) (sink w) s (log w).
Definition add_log (r : level * string) (w : world) : world :=
  World (fs w) (console w) (sink w) (sys_stdout w) (log w ++ [r]).

(** A computation returns or raises, and leaves a world behind either way. *)
Definition M (A : Type) : Type := world → outcome A * world.

Definition ret {A} (a : A) : M A := λ w, (Ok a, w).

Definition raise {A} (e : exn) : M A := λ w, (Raise e, w).

Definition bind {A B} (m : M A) (k : A → M B) : M B :=
  λ w, match m w with
       | (Ok a, w') => k a w'
       | (Raise e, w') => (Raise e, w')
       end.

Notation "x <- m ; k" := (bind m (λ x, k))
  (at level 20, m at level 100, k at level 200, only parsing).

(** [for x in l: body(x)]. *)
Fixpoint for_each {A} (l : list A) (body : A → M unit) : M unit :=
  match l with
  | [] => ret tt
  | x :: l' => _ <- body x; for_each l' body
  end.

(** A loop that updates a local variable [s]. *)
Fixpoint for_fold {A S} (l : list A) (s : S) (body : S → A → M S) : M S :=
  match l with
  | [] => ret s
  | x :: l' => s' <- body s x; for_fold l' s' body
  end.

(** [try: body except AttributeError: handler]. *)
Definition try_except_AttributeError {A} (body handler : M A) : M A :=
  λ w, match body w with
       | (Raise AttributeError, w') => handler w'
       | r => r
       end.

(** [with redirect_stdout(s): body]; the former binding is restored on
    the way out, also when [body] raises. *)
Definition redirect_stdout {A} (s : stream) (body : M A) : M A :=
  λ w, let old := sys_stdout w in
       let (r, w') := body (set_stdout s w) in
       (r, set_stdout old w').

Definition lift_fs {A} (f : Os.node → outcome A) : M A :=
  λ w, (f (fs w), w).

Definition update_fs (f : Os.node → outcome Os.node) : M unit :=
  λ w, match f (fs w) with
       | Ok n => (Ok tt, set_fs n w)
       | Raise e => (Raise e, w)
       end.

(** [with open(p) as f: f.read()]. *)
Definition open_read (p : string) : M string := lift_fs (λ n, Os.read n p).

(** [open(p, 'a')]: the file exists afterwards. *)
Definition open_append (p : string) : M unit :=
  update_fs (λ n, Os.append n p "").

Definition path_exists (p : string) : M bool :=
  lift_fs (λ n, Ok (Os.exists_ n p)).
Definition path_isdir (p : string) : M bool :=
  lift_fs (λ n, Ok (Os.isdir n p)).
Definition listdir (p : string) : M (list string) :=
  lift_fs (λ n, Os.listdir n p).
Definition makedirs (p : string) : M unit :=
  update_fs (λ n, Os.makedirs n p).

(** Writing to whatever [sys.stdout] is bound to. *)
Definition sys_write (text : string) : M unit :=
  λ w, match sys_stdout w with
       | Console => (Ok tt, set_console (console w ++ text) w)
       | Sink => (Ok tt, set_sink (sink w ++ text) w)
       | ToFile p => update_fs (λ n, Os.append n p text) w
       end.

Definition print (args : list string) : M unit :=
  sys_write (Py.print_text args).

Definition log_debug (msg : string) : M unit :=
  λ w, (Ok tt, add_log (DEBUG, msg) w).
Definition log_warning (msg : string) : M unit :=
  λ w, (Ok tt, add_log (WARNING, msg) w).

(** ** [datetime.strftime] for the one format the runner uses *)

Record datetime : Type := Datetime {
  year : nat; month : nat; day : nat;
  hour : nat; minute : nat; second : nat
}.

Definition digit (n : nat) : ascii :=
  match n mod 10 with
  | 0 => "0" | 1 => "1" | 2 => "2" | 3 => "3" | 4 => "4"
  | 5 => "5" | 6 => "6" | 7 => "7" | 8 => "8" | _ => "9"
  end%char.

(** Two and four decimal digits, padded with zeros. *)
Definition pad2 (n : nat) : string :=
  String (digit (n / 10)) (String (digit n) "").
Definition pad4 (n : nat) : string :=
  String (digit (n / 1000)) (String (digit (n / 100)) (pad2 n)).

(** [%Y]: the year in decimal as the C library writes it, to which
    [strftime] hands the format: without padding, so with fewer than four
    digits before the year 1000.  A [datetime] holds the years 1 to 9999. *)
Definition year_digits (y : nat) : string :=
  if (y <? 10)%nat then String (digit y) ""
  else if (y <? 100)%nat then pad2 y
  else if (y <? 1000)%nat then String (digit (y / 100)) (pad2 y)
  else pad4 y.

(** [t.strftime('run-%Y-%m-%d.%H:%M:%S')]; the month, the day, the hour,
    the minute and the second of a [datetime] are below 100 and are written
    with two digits. *)
Definition strftime_run (t : datetime) : string :=
  "run-" ++ year_digits (year t) ++ "-" ++ pad2 (month t) ++ "-"
  ++ pad2 (day t) ++ "." ++ pad2 (hour t) ++ ":" ++ pad2 (minute t) ++ ":"
  ++ pad2 (second t).

(** ** The module [infra/report.py] *)

Definition prefix : string := "[setup-report]".

(** What the module reads of the configuration context: [ctx.timestamp],
    [ctx.paths.pool_results] and [ctx.paths.runlog]; [ctx.log] is the [log]
    of the world. *)
Record context : Type := Context {
  timestamp : datetime;
  pool_results : string;
  runlog : string
}.

(** A finished job: [outfile] is an attribute only some jobs have. *)
Record job : Type := Job {
  job_outfile : option string;
  teeout : bool;
  stdout : string
}.

Module BenchmarkRunner.

(** [target] and [instance] stand for [self.target.name] and
    [self.instance.name], the only parts of them the class reads. *)
Record t : Type := Build {
  ctx : context;
  target : string;
  instance : string;
  outfile : string
}.



(** [data] lists the items of the dictionary in insertion order, each value
    already converted by [str]. *)
Definition report (self : t) (data : list (string * string)) : M unit :=
  _ <- print [prefix; "begin"];
  _ <- print [prefix; "target:"; target self];
  _ <- print [prefix; "instance:"; instance self];
  _ <- for_each data (λ kv, print [prefix; kv.1 ++ ":"; kv.2]);
  print [prefix; "end"].

Section Collaborators.

(** Modelled from the spec: [Target.report_result], which is not part of
    this module.  It is handed the captured text, derives key/value pairs
    from it and supplies them through [report]; [derive] is that
    target-specific derivation. *)
Variable derive : context → string → string → list (string * string).

Definition report_result (c : context) (output instance : string)
    (runner : t) : M unit :=
  report runner (derive c output instance).

Definition _print_footer (self : t) (j : job) : M unit :=
  match job_outfile j with
  | Some p =>
      _ <- log_debug ("appending metadata to " ++ p);
      output <- open_read p;
      _ <- open_append p;
      redirect_stdout (ToFile p)
        (report_result (ctx self) output (instance self) self)
  | None =>
      if teeout j then
        report_result (ctx self) (stdout j) (instance self) self
      else
        _ <- open_append (runlog (ctx self));
        redirect_stdout (ToFile (runlog (ctx self)))
          (report_result (ctx self) (stdout j) (instance self) self)
  end.


(** [Pool.run] and [util.run] are not part of this module: a pool takes the
    command, the continuation and the output file and yields its jobs; the
    plain runner yields the finished job. *)
Variable pool_run :
  context → list string → (job → M unit) → string → M (list job).
Variable util_run : context → list string → M job.


End Collaborators.

End BenchmarkRunner.

Module BenchmarkReporter.

(** [target] is [self.target.name], [instances] the names of
    [self.instances], [outfile] the stream the report goes to. *)
Record t : Type := Build {
  ctx : context;
  target : string;
  instances : list string;
  outfile : stream
}.

Definition duplicate_warning (name path : string) : string :=
  "duplicate metadata entry for " ++ Py.dquote ++ name ++ Py.dquote
  ++ " in " ++ path ++ ", using the last one".

(** The body of the loop over the lines of a file. *)
Definition parse_line (path : string) (meta : gmap string string)
    (line : string) : M (gmap string string) :=
  let line := Py.rstrip line in
  if Py.startswith line prefix then
    match Py.split1 ": " (Py.slice_from (String.length prefix + 1) line) with
    | [name; value] =>
        _ <- (if decide (is_Some (meta !! name))
              then log_warning (duplicate_warning name path)
              else ret tt);
        ret (<[name := value]> meta)
    | _ => raise ValueError
    end
  else ret meta.

Definition _parse_metadata (self : t) (path : string)
  : M (gmap string string) :=
  content <- open_read path;
  for_fold (Py.readlines content) ∅ (parse_line path).

Definition missing_warning (rundir target : string) : string :=
  "rundir " ++ rundir ++ " contains no results for target " ++ target.

(** [not instance_names or subdir in instance_names]. *)
Definition selected (instance_names : list string) (subdir : string) : bool :=
  match instance_names with
  | [] => true
  | _ => bool_decide (subdir ∈ instance_names)
  end.

(** The first loop of [parse_rundirs]: the instance directories. *)
Definition discover (self : t) (rundirs : list string) : M (list string) :=
  let instance_names := instances self in
  for_fold rundirs [] (λ (instance_dirs : list string) rundir,
    let targetdir := Os.join rundir (target self) in
    found <- path_exists targetdir;
    if (found : bool) then
      subdirs <- listdir targetdir;
      for_fold subdirs instance_dirs (λ instance_dirs subdir,
        let instancedir := Os.join targetdir subdir in
        d <- path_isdir instancedir;
        if (d : bool) && selected instance_names subdir
        then ret (instance_dirs ++ [instancedir])%list
        else ret instance_dirs)
    else
      _ <- log_warning (missing_warning rundir (target self));
      ret instance_dirs).

Section Printing.

(** [pprint.pformat] on a dictionary of strings. *)
Variable pformat : gmap string string → string.

Definition pprint (m : gmap string string) : M unit :=
  sys_write (pformat m ++ Py.nl).

(** The second loop of [parse_rundirs]: every entry of every instance
    directory is printed and parsed. *)
Definition collect (self : t) (instance_dirs : list string) : M unit :=
  for_each instance_dirs (λ idir,
    filenames <- listdir idir;
    for_each filenames (λ filename,
      let path := Os.join idir filename in
      _ <- print ["file:"; path];
      meta <- _parse_metadata self path;
      pprint meta)).

Definition parse_rundirs (self : t) (rundirs : list string) : M unit :=
  instance_dirs <- discover self rundirs;
  collect self instance_dirs.

End Printing.

Definition report_brief (self : t) : M unit := ret tt.

Definition report_full (self : t) : M unit := raise NotImplementedError.

Definition report_csv (self : t) : M unit := raise NotImplementedError.

(** [getattr(self, name)] for a name that starts with [report_]: the three
    methods above are the only such attributes of a reporter. *)
Definition getattr (self : t) (name : string) : M (M unit) :=
  if String.eqb name "report_brief" then ret (report_brief self)
  else if String.eqb name "report_full" then ret (report_full self)
  else if String.eqb name "report_csv" then ret (report_csv self)
  else raise AttributeError.

Definition unknown_mode (mode : string) : string :=
  "unknown reporting mode " ++ Py.dquote ++ mode ++ Py.dquote.

(** The body of [report].  Python resolves [getattr(self, 'report_' + mode)]
    on the object at hand, a reporter of this class or of a class derived
    from it; [lookup] is that resolution. *)
Definition report_by (lookup : t → string → M (M unit)) (self : t)
    (mode : string) : M unit :=
  redirect_stdout (outfile self)
    (try_except_AttributeError
       (method <- lookup self ("report_" ++ mode); method)
       (raise (FatalError (unknown_mode mode)))).

(** [report] on a reporter of the class itself. *)
Definition report (self : t) (mode : string) : M unit :=
  report_by getattr self mode.

End BenchmarkReporter.

(** ** Vocabulary for the statements *)

(** The line [report] prints for one key. *)
Definition kv_line (k v : string) : string :=
  Py.print_text [prefix; k ++ ":"; v].

(** The two marker lines. *)
Definition begin_line : string := Py.print_text [prefix; "begin"].
Definition end_line : string := Py.print_text [prefix; "end"].

(** The lines of a result file: output of the command, or a key and its
    value behind the prefix. *)
Inductive item : Type :=
| Noise (line : string)
| Entry (k v : string).

Definition render_item (i : item) : string :=
  match i with
  | Noise l => l ++ Py.nl
  | Entry k v => kv_line k v
  end.

Definition render (items : list item) : string :=
  String.concat "" (map render_item items).

Fixpoint entries_of (items : list item) : list (string * string) :=
  match items with
  | [] => []
  | Noise _ :: r => entries_of r
  | Entry k v :: r => (k, v) :: entries_of r
  end.

(** A key fits on a line and has no [": "] inside; a value fits on a line,
    is not empty and does not end in white space; a line of output does not
    start with the prefix. *)
Definition wf_key (k : string) : bool :=
  Py.inline k && negb (Py.contains ": " k).
Definition wf_value (v : string) : bool :=
  Py.inline v && Os.nonempty v && String.eqb (Py.rstrip v) v.
Definition wf_item (i : item) : bool :=
  match i with
  | Noise l => Py.inline l && negb (Py.startswith l prefix)
  | Entry k v => wf_key k && wf_value v
  end.

(** [d.update(items)]: later items win. *)
Definition dict_update (m : gmap string string) (items : list (string * string))
  : gmap string string :=
  foldl (λ m kv, <[kv.1 := kv.2]> m) m items.

(** The keys of [ks] that were seen before, each as often as it recurs. *)
Fixpoint repeats (seen ks : list string) : list string :=
  match ks with
  | [] => []
  | k :: r =>
      (if bool_decide (k ∈ seen) then [k] else []) ++ repeats (k :: seen) r
  end.

Definition add_logs (rs : list (level * string)) (w : world) : world :=
  World (fs w) (console w) (sink w) (sys_stdout w) (log w ++ rs).

Definition duplicate_warnings (path : string) (ks : list string)
  : list (level * string) :=
  map (λ k, (WARNING, BenchmarkReporter.duplicate_warning k path)) ks.

(** What [report] prints, as one text. *)
Definition report_text (self : BenchmarkRunner.t)
    (data : list (string * string)) : string :=
  begin_line
  ++ kv_line "target" (BenchmarkRunner.target self)
  ++ kv_line "instance" (BenchmarkRunner.instance self)
  ++ String.concat "" (map (λ kv, kv_line kv.1 kv.2) data)
  ++ end_line.

(** The entries [report] prints between the two markers. *)
Definition report_entries (self : BenchmarkRunner.t)
    (data : list (string * string)) : list item :=
  Entry "target" (BenchmarkRunner.target self)
  :: Entry "instance" (BenchmarkRunner.instance self)
  :: map (λ kv, Entry kv.1 kv.2) data.

(** The world after the membership test on [meta] in the parser. *)
Definition warn_if_known (path : string) (meta : gmap string string)
    (k : string) (w : world) : world :=
  if decide (is_Some (meta !! k))
  then add_log (WARNING, BenchmarkReporter.duplicate_warning k path) w
  else w.


(** Writing a record with one runner and reading it back with a reporter:
    the metadata is printed to the file [path] the way [_print_footer] does,
    then the file is parsed. *)
Definition encode_then_decode (runner : BenchmarkRunner.t)
    (reporter : BenchmarkReporter.t) (path : string)
    (data : list (string * string)) : M (gmap string string) :=
  _ <- open_append path;
  _ <- redirect_stdout (ToFile path) (BenchmarkRunner.report runner data);
  BenchmarkReporter._parse_metadata reporter path.

(** The content of the regular file at [p], when there is one. *)
Definition file_content (w : world) (p : string) : option string :=
  match Os.read (fs w) p with
  | Ok c => Some c
  | Raise _ => None
  end.

Definition read_at (cs : list string) (n : Os.node) : option string :=
  match Os.resolve cs n with
  | Ok (Os.File c) => Some c
  | _ => None
  end.

(** The text a runner prints for the output of a job. *)
Definition footer_text
    (derive : context → string → string → list (string * string))
    (self : BenchmarkRunner.t) (output : string) : string :=
  report_text self
    (derive (BenchmarkRunner.ctx self) output (BenchmarkRunner.instance self)).

(** A world differs from another in the content of one file at most. *)
Definition same_but_file (p : string) (w w' : world) : Prop :=
  (∀ q, Os.components q ≠ Os.components p →
        file_content w' q = file_content w q)
  ∧ console w' = console w
  ∧ sink w' = sink w
  ∧ sys_stdout w' = sys_stdout w.





(** The names of a target directory that [discover] keeps, and what a run
    root adds to the instance directories. *)
Definition kept_names (self : BenchmarkReporter.t) (w : world)
    (targetdir : string) (names : list string) : list string :=
  List.filter
    (λ s, Os.isdir (fs w) (Os.join targetdir s)
          && BenchmarkReporter.selected (BenchmarkReporter.instances self) s)
    names.

Definition contribution (self : BenchmarkReporter.t) (w : world)
    (rundir : string) : list string :=
  let targetdir := Os.join rundir (BenchmarkReporter.target self) in
  match Os.listdir (fs w) targetdir with
  | Ok names => map (Os.join targetdir) (kept_names self w targetdir names)
  | Raise _ => []
  end.

Definition lacks_target (self : BenchmarkReporter.t) (w : world)
    (rundir : string) : bool :=
  negb (Os.exists_ (fs w) (Os.join rundir (BenchmarkReporter.target self))).

Definition missing_warnings (self : BenchmarkReporter.t) (w : world)
    (rundirs : list string) : list (level * string) :=
  map (λ r, (WARNING,
             BenchmarkReporter.missing_warning r
               (BenchmarkReporter.target self)))
      (List.filter (lacks_target self w) rundirs).

(** ** Sample values *)

Module Sample.

Definition ctx : context :=
  Context (Datetime 2019 3 7 14 5 59) "/results" "/results/run.log".

Definition runner : BenchmarkRunner.t :=
  BenchmarkRunner.Build ctx "spec2006" "clang" "/results/out".

Definition reporter : BenchmarkReporter.t :=
  BenchmarkReporter.Build ctx "spec2006" [] Sink.

(** An empty file system. *)
Definition empty : world := World (Os.Dir ∅) "" "" Console [].

Definition with_file (name content : string) : world :=
  World (Os.Dir {[name := Os.File content]}) "" "" Console [].

(** Output of a command with three tagged lines in it, one key twice. *)
Definition noisy : list item :=
  [Noise "Running benchmark"; Entry "a" "1"; Noise ""; Entry "b" "2";
   Noise "  done [setup-report]"; Entry "a" "3"].

Definition noisy_world : world := with_file "out" (render noisy).

(** The output file of a job before the footer is printed, and the job. *)
Definition bzip2_world : world := with_file "out" ("Running bzip2" ++ Py.nl).

Definition bzip2_job : job := Job (Some "out") false "".

(** A target that reports the same two entries for every output. *)
Definition derive (c : context) (output instance : string)
  : list (string * string) :=
  [("status", "ok"); ("runtime", "12.5")].

(** A record as a target would report it. *)
Definition data : list (string * string) :=
  [("status", "ok"); ("runtime", "12.5")].

(** A run directory with the result file of one benchmark, in which the
    runner printed its metadata. *)
Definition results : world :=
  World
    (Os.Dir {["run" := Os.Dir {["spec2006" := Os.Dir {["clang" :=
       Os.Dir {["bzip2" := Os.File ("Running bzip2" ++ Py.nl
                                     ++ report_text runner data)]}]}]}]})
    "" "" Console [].

(** A result file that holds the entries of [data] and nothing else. *)
Definition entries_world : world :=
  with_file "out" (render (report_entries runner data)).










End Sample.


(** ** More vocabulary: lines and values as the parser reads them *)

(** What follows the prefix and one more character on a stripped line. *)
Definition tagged_rest (line : string) : string :=
  Py.slice_from (String.length prefix + 1) (Py.rstrip line).

(** A value of which nothing is left once the line is stripped. *)
Definition blank (v : string) : bool := negb (Os.nonempty (Py.rstrip v)).

(** Like [wf_item], except that a value may end in white space as long as
    it is not blank. *)
Definition loose_item (i : item) : bool :=
  match i with
  | Noise l => Py.inline l && negb (Py.startswith l prefix)
  | Entry k v => wf_key k && Py.inline v && negb (blank v)
  end.

(** The entries with their values stripped. *)
Definition stripped (es : list (string * string)) : list (string * string) :=
  map (λ kv, (kv.1, Py.rstrip kv.2)) es.

(** The record the parser reads from well-formed lines. *)
Definition record_of (items : list item) : gmap string string :=
  dict_update ∅ (stripped (entries_of items)).

(** What [collect] prints for one file. *)
Definition file_report (pformat : gmap string string → string)
    (path : string) (meta : gmap string string) : string :=
  Py.print_text ["file:"; path] ++ pformat meta ++ Py.nl.

(** The paths [collect] visits in one instance directory. *)
Definition listed (w : world) (idir : string) : list string :=
  match Os.listdir (fs w) idir with
  | Ok names => map (Os.join idir) names
  | Raise _ => []
  end.

(** A file that holds well-formed lines, those [items_of] gives for it. *)
Definition readable (w : world) (items_of : string → list item)
    (path : string) : Prop :=
  Os.read (fs w) path = Ok (render (items_of path))
  ∧ forallb loose_item (items_of path) = true.

(** The world after [collect] went through one readable file. *)
Definition after_file (pformat : gmap string string → string)
    (items_of : string → list item) (w : world) (path : string) : world :=
  add_logs
    (duplicate_warnings path (repeats [] (entries_of (items_of path)).*1))
    (set_console
       (console w ++ file_report pformat path (record_of (items_of path))) w).

Definition after_files (pformat : gmap string string → string)
    (items_of : string → list item) (w : world) (paths : list string)
  : world :=
  foldl (after_file pformat items_of) w paths.

(** ** More sample values *)

Module More.

(** A result file whose values end in white space. *)
Definition padded : list item :=
  [Noise "Running"; Entry "a" "1  "; Entry "b" ("2" ++ String "009" "")].

Definition padded_world : world := Sample.with_file "out" (render padded).

(** A result file in which the end marker follows an entry. *)
Definition marked_world : world :=
  Sample.with_file "out"
    (render [Entry "a" "1"] ++ "[setup-report] end" ++ Py.nl ++ "tail").

(** A result file in which an entry has an empty value. *)
Definition blank_world : world :=
  Sample.with_file "out"
    (render [Entry "a" "1"] ++ kv_line "note" "" ++ "tail").

(** An instance directory with two result files without markers, one of
    them without tagged lines. *)
Definition tidy : world :=
  World
    (Os.Dir {["run" := Os.Dir {["spec2006" := Os.Dir {["clang" :=
       Os.Dir {["bzip2" := Os.File (render [Noise "Running bzip2";
                                            Entry "status" "ok"]);
                "mcf" := Os.File (render [Noise "Running mcf"])]}]}]}]})
    "" "" Console [].

Definition tidy_items (path : string) : list item :=
  if String.eqb path "run/spec2006/clang/bzip2"
  then [Noise "Running bzip2"; Entry "status" "ok"]
  else [Noise "Running mcf"].

(** A way to print a record: its keys and values, in the order of the map. *)
Definition show (m : gmap string string) : string :=
  String.concat ", " (map (λ kv, kv.1 ++ "=" ++ kv.2) (map_to_list m)).

(** An instance directory that holds a directory. *)
Definition nested : world :=
  World (Os.Dir {["inst" := Os.Dir {["sub" := Os.Dir ∅]}]}) "" "" Console [].

End More.

(** ** The choice of benchmarks in [targets/spec2006]

    [SPEC2006._get_benchmarks], which is [get_benchmarks] in the older file
    of the two: the benchmarks of the sets named on the command line, less
    those the instance excludes, in ascending order. *)

Module Spec2006.

(** Indexing a dictionary returns the value or raises [KeyError]. *)
Inductive lookup_result (A : Type) : Type :=
| Found (a : A)
| KeyError (key : string).
Arguments Found {A} a.
Arguments KeyError {A} key.

(** [sorted(s)] for a set of strings: strings compare by their characters,
    a proper prefix coming first. *)
Definition sorted (s : gset string) : list string :=
  merge_sort String.le (elements s).

(** [not hasattr(instance, 'exclude_spec2006_benchmark') or
    not instance.exclude_spec2006_benchmark(bench)]: [exclude] is the
    method, when the instance has it. *)
Definition wanted (exclude : option (string → bool)) (bench : string) : bool :=
  match exclude with
  | None => true
  | Some f => negb (f bench)
  end.

(** The inner loop: the benchmarks of one set are added. *)
Definition add_set (exclude : option (string → bool)) (acc : gset string)
    (benches : list string) : gset string :=
  foldl (λ s bench, if wanted exclude bench then {[bench]} ∪ s else s)
    acc benches.

(** The outer loop over [ctx.args.spec2006_benchmarks]; [benchmarks] is the
    dictionary [self.benchmarks]. *)
Fixpoint add_sets (benchmarks : gmap string (list string))
    (exclude : option (string → bool)) (bsets : list string)
    (acc : gset string) : lookup_result (gset string) :=
  match bsets with
  | [] => Found acc
  | bset :: rest =>
      match benchmarks !! bset with
      | None => KeyError bset
      | Some benches =>
          add_sets benchmarks exclude rest (add_set exclude acc benches)
      end
  end.

Definition _get_benchmarks (benchmarks : gmap string (list string))
    (spec2006_benchmarks : list string) (exclude : option (string → bool))
  : lookup_result (list string) :=
  match add_sets benchmarks exclude spec2006_benchmarks ∅ with
  | Found s => Found (sorted s)
  | KeyError k => KeyError k
  end.

(** A benchmark of one of the sets named that the instance does not
    exclude. *)
Definition from_sets (benchmarks : gmap string (list string))
    (exclude : option (string → bool)) (bsets : list string) (x : string)
  : Prop :=
  ∃ bset benches, bset ∈ bsets ∧ benchmarks !! bset = Some benches
                  ∧ x ∈ benches ∧ wanted exclude x = true.

(** The sets of the older file, with [all] and one set for each benchmark
    added as the class body does. *)
Definition int_set : list string :=
  ["400.perlbench"; "401.bzip2"; "403.gcc"; "429.mcf"; "445.gobmk";
   "456.hmmer"; "458.sjeng"; "462.libquantum"; "464.h264ref"; "471.omnetpp";
   "473.astar"; "483.xalancbmk"].

Definition fp_set : list string :=
  ["410.bwaves"; "416.gamess"; "433.milc"; "434.zeusmp"; "435.gromacs";
   "436.cactusADM"; "437.leslie3d"; "444.namd"; "447.dealII"; "450.soplex";
   "453.povray"; "454.calculix"; "459.GemsFDTD"; "465.tonto"; "470.lbm";
   "481.wrf"; "482.sphinx3"].

Definition c_set : list string :=
  ["400.perlbench"; "401.bzip2"; "403.gcc"; "429.mcf"; "433.milc";
   "445.gobmk"; "456.hmmer"; "458.sjeng"; "462.libquantum"; "464.h264ref";
   "470.lbm"; "482.sphinx3"].

Definition cpp_set : list string :=
  ["444.namd"; "447.dealII"; "450.soplex"; "453.povray"; "471.omnetpp";
   "473.astar"; "483.xalancbmk"].

Definition fortran_set : list string :=
  ["410.bwaves"; "416.gamess"; "434.zeusmp"; "435.gromacs"; "436.cactusADM";
   "437.leslie3d"; "454.calculix"; "459.GemsFDTD"; "465.tonto"; "481.wrf"].

Definition all_set : list string :=
  merge_sort String.le (int_set ++ fp_set).

Definition benchmarks : gmap string (list string) :=
  foldl (λ m bench, <[bench := [bench]]> m)
    (<["all" := all_set]>
       {["int" := int_set; "fp" := fp_set; "c" := c_set; "c++" := cpp_set;
         "fortran" := fortran_set]})
    all_set.

End Spec2006.

(** ** [_unindent]

    The three regular-expression steps of [_unindent], which the module and
    the target files both define, read line by line: the lines of a text
    are what stands between its line feeds. *)

Module Unindent.

Definition SPACE : ascii := " "%char.

(** [s.split('\n')]. *)
Fixpoint split_lines (s : string) : list string :=
  match s with
  | "" => [""]
  | String c t =>
      if Ascii.eqb c Py.LF then "" :: split_lines t
      else
        match split_lines t with
        | [] => [String c ""]
        | h :: r => String c h :: r
        end
  end.

(** ['\n'.join(lines)]. *)
Definition join_lines (lines : list string) : string :=
  String.concat Py.nl lines.

(** The number of spaces a line starts with. *)
Fixpoint lead (l : string) : nat :=
  match l with
  | "" => 0
  | String c t => if Ascii.eqb c SPACE then S (lead t) else 0
  end.

Definition all_spaces (l : string) : bool :=
  (lead l =? String.length l)%nat.

(** The matches of [\n *$]: a line feed and the spaces after it at the end
    of the text, and also before a line feed that ends the text. *)
Definition strip_tail (s : string) : string :=
  match rev (split_lines s) with
  | last :: prev :: rest =>
      if all_spaces last then
        if negb (Os.nonempty last) && all_spaces prev
           && match rest with [] => false | _ => true end
        then join_lines (rev rest)
        else join_lines (rev (prev :: rest))
      else s
  | _ => s
  end.

(** [re.sub(r'^\n|\n *$', '', cmd)]: the first alternative takes a line feed
    at the very start, the second the matches at the end of what is left. *)
Definition sub_ends (cmd : string) : string :=
  strip_tail
    match cmd with
    | String c t => if Ascii.eqb c Py.LF then t else cmd
    | "" => ""
    end.

(** [re.search('^ +', stripped, re.M)]: the spaces at the start of the
    first line that starts with one, given by their number. *)
Fixpoint search_indent (lines : list string) : option nat :=
  match lines with
  | [] => None
  | l :: rest =>
      match lead l with
      | O => search_indent rest
      | S k => Some (S k)
      end
  end.

(** What [re.sub('^' + indent, '', stripped, 0, re.M)] does to one line,
    [indent] being [k] spaces. *)
Definition dedent (k : nat) (l : string) : string :=
  if (k <=? lead l)%nat then Py.slice_from k l else l.

Definition _unindent (cmd : string) : string :=
  let stripped := sub_ends cmd in
  match search_indent (split_lines stripped) with
  | Some k => join_lines (map (dedent k) (split_lines stripped))
  | None => stripped
  end.

(** [k] spaces. *)
Fixpoint spaces (k : nat) : string :=
  match k with
  | O => ""
  | S k' => String SPACE (spaces k')
  end.

(** A text without line feeds. *)
Fixpoint one_line (s : string) : bool :=
  match s with
  | "" => true
  | String c t => negb (Ascii.eqb c Py.LF) && one_line t
  end.

(** A line of a block, as [_run_bash] builds it: indented like the block,
    or a line of the commands put into it, which is indented less. *)
Inductive segment : Type :=
| Indented (body : string)
| Raw (line : string).

Definition segment_line (k : nat) (g : segment) : string :=
  match g with
  | Indented body => spaces k ++ body
  | Raw line => line
  end.

Definition segment_body (g : segment) : string :=
  match g with
  | Indented body => body
  | Raw line => line
  end.

Definition segment_ok (k : nat) (g : segment) : bool :=
  match g with
  | Indented body => one_line body
  | Raw line => one_line line && (lead line <? k)%nat
  end.

End Unindent.

(** ** The built-ins on sample values *)

Example rstrip_ex : Py.rstrip ("a b  " ++ Py.nl) = "a b".
Proof. reflexivity. Qed.

Example split1_ex : Py.split1 ": " "k: v: w" = ["k"; "v: w"].
Proof. reflexivity. Qed.

Example split1_none : Py.split1 ": " "begin" = ["begin"].
Proof. reflexivity. Qed.

Example readlines_ex :
  Py.readlines ("a" ++ String Py.CR (String Py.LF "b") ++ Py.nl ++ "c")
  = ["a" ++ Py.nl; "b" ++ Py.nl; "c"].
Proof. reflexivity. Qed.

Example join_ex : Os.join_all "/res" ["run-1"; "t"; "i"] = "/res/run-1/t/i".
Proof. reflexivity. Qed.

Example join_abs : Os.join_all "/res" ["run-1"; "/t"; "i"] = "/t/i".
Proof. reflexivity. Qed.

Example components_ex : Os.components "/res//run-1/t/" = ["res"; "run-1"; "t"].
Proof. reflexivity. Qed.

Example strftime_ex :
  strftime_run (Datetime 2019 3 7 14 5 59) = "run-2019-03-07.14:05:59".
Proof. reflexivity. Qed.

(** ** Facts about the string built-ins *)

Section StringFacts.

Local Arguments String.append : simpl nomatch.
Local Arguments Ascii.eqb : simpl never.

Lemma append_nil_r (s : string) : s ++ "" = s.
Proof. induction s as [|c s IH]; simpl; [done | by rewrite IH]. Qed.

Lemma append_assoc (a b c : string) : (a ++ b) ++ c = a ++ (b ++ c).
Proof. induction a as [|x a IH]; simpl; [done | by rewrite IH]. Qed.

Lemma startswith_refl_app (p x : string) : Py.startswith (p ++ x) p = true.
Proof.
  induction p as [|c p IH]; simpl; [done |].
  by rewrite Ascii.eqb_refl, IH.
Qed.

Lemma startswith_app_l (a t p : string) :
  Py.startswith a p = true → Py.startswith (a ++ t) p = true.
Proof.
  revert a. induction p as [|c p IH]; intros [|d a]; simpl; try done.
  intros [-> Hp]%andb_prop. by rewrite (IH _ Hp).
Qed.

Lemma slice_from_app (p x : string) :
  Py.slice_from (String.length p) (p ++ x) = x.
Proof. induction p as [|c p IH]; simpl; done. Qed.

Lemma rstrip_app (a b : string) :
  Py.rstrip (a ++ b)
  = match Py.rstrip b with "" => Py.rstrip a | r => a ++ r end.
Proof.
  induction a as [|c a IH]; simpl.
  - by destruct (Py.rstrip b).
  - rewrite IH. destruct (Py.rstrip b) as [|d r]; [done |].
    by destruct a.
Qed.

Lemma rstrip_is_prefix (s : string) : ∃ t, s = Py.rstrip s ++ t.
Proof.
  induction s as [|c s [t IH]]; simpl.
  - by exists "".
  - destruct (Py.rstrip s) as [|d r] eqn:E.
    + destruct (Py.isspace c).
      * by exists (String c s).
      * exists s. done.
    + exists t. simpl in *. by f_equal.
Qed.

Lemma startswith_rstrip (s p : string) :
  Py.startswith s p = false → Py.startswith (Py.rstrip s) p = false.
Proof.
  intros H. destruct (Py.startswith (Py.rstrip s) p) eqn:E; [|done].
  destruct (rstrip_is_prefix s) as [t Ht].
  apply (startswith_app_l _ t) in E. rewrite <- Ht in E. congruence.
Qed.

Lemma readlines_line (l rest : string) :
  Py.inline l = true →
  Py.readlines (l ++ Py.nl ++ rest) = (l ++ Py.nl) :: Py.readlines rest.
Proof.
  induction l as [|c l IH]; simpl; intros H; [done |].
  apply andb_prop in H as [Hc Hl]. unfold Py.inline_char in Hc.
  apply andb_prop in Hc as [H1 H2].
  apply negb_true_iff in H1, H2. rewrite H1, H2.
  change (String Py.LF rest) with (Py.nl ++ rest). by rewrite (IH Hl).
Qed.

Lemma split1_key_value (k v : string) :
  Py.contains ": " k = false → Py.split1 ": " (k ++ ": " ++ v) = [k; v].
Proof.
  induction k as [|c k IH]; intros H.
  - done.
  - simpl in H. apply orb_false_elim in H as [Hs Hk].
    specialize (IH Hk).
    assert (Py.startswith (String c (k ++ ": " ++ v)) ": " = false) as Hn.
    { simpl in Hs |- *. destruct (Ascii.eqb ":" c); [|done].
      destruct k as [|d k]; [done |]. exact Hs. }
    change (String c k ++ ": " ++ v) with (String c (k ++ ": " ++ v)).
    revert Hn. unfold Py.split1 at 1. fold Py.split1. 
    intros ->. by rewrite IH.
Qed.

End StringFacts.

(** ** The parser on one line *)

Section ParseLine.

Local Arguments String.append : simpl nomatch.
Local Arguments Ascii.eqb : simpl never.
Import BenchmarkReporter.

Lemma kv_line_eq (k v : string) :
  kv_line k v = (prefix ++ " " ++ k ++ ": " ++ v) ++ Py.nl.
Proof.
  unfold kv_line, Py.print_text.
  change (String.concat " " [prefix; k ++ ":"; v])
    with (prefix ++ " " ++ (k ++ ":") ++ " " ++ v).
  by rewrite (append_assoc k ":" (" " ++ v)).
Qed.

Lemma wf_value_rstrip (v : string) :
  wf_value v = true → Py.rstrip v = v ∧ v ≠ "".
Proof.
  unfold wf_value. intros [[_ Hn]%andb_prop He%String.eqb_eq]%andb_prop.
  split; [done |]. by destruct v.
Qed.

Lemma rstrip_kv_line (k v : string) :
  wf_value v = true →
  Py.rstrip (kv_line k v) = prefix ++ " " ++ k ++ ": " ++ v.
Proof.
  intros [Hr Hn]%wf_value_rstrip.
  rewrite kv_line_eq, rstrip_app. change (Py.rstrip Py.nl) with "".
  rewrite <- !append_assoc, rstrip_app, Hr.
  destruct v; [done |]. by rewrite !append_assoc.
Qed.

Lemma parse_line_entry (path k v : string) (meta : gmap string string)
    (w : world) :
  wf_key k = true → wf_value v = true →
  parse_line path meta (kv_line k v) w
  = (Ok (<[k := v]> meta), warn_if_known path meta k w).
Proof.
  intros [_ Hk%negb_true_iff]%andb_prop Hv. unfold parse_line.
  rewrite (rstrip_kv_line _ _ Hv), startswith_refl_app.
  change (Py.slice_from _ (prefix ++ " " ++ k ++ ": " ++ v))
    with (k ++ ": " ++ v).
  rewrite (split1_key_value _ _ Hk). unfold bind, warn_if_known.
  by destruct (decide (is_Some (meta !! k))).
Qed.

Lemma parse_line_noise (path l : string) (meta : gmap string string)
    (w : world) :
  Py.startswith l prefix = false →
  parse_line path meta (l ++ Py.nl) w = (Ok meta, w).
Proof.
  intros H. unfold parse_line.
  rewrite rstrip_app. change (Py.rstrip Py.nl) with "". cbv iota.
  by rewrite (startswith_rstrip _ _ H).
Qed.

End ParseLine.

(** ** The parser on a whole file *)

Section ParseFile.

Local Arguments String.append : simpl nomatch.
Local Arguments Ascii.eqb : simpl never.
Import BenchmarkReporter.

Lemma concat_empty_cons (x : string) (xs : list string) :
  String.concat "" (x :: xs) = x ++ String.concat "" xs.
Proof. destruct xs; simpl; [by rewrite append_nil_r | done]. Qed.

Lemma inline_app (a b : string) :
  Py.inline (a ++ b) = Py.inline a && Py.inline b.
Proof.
  induction a as [|c a IH]; simpl; [done |].
  by rewrite IH, andb_assoc.
Qed.

Lemma render_item_line (i : item) :
  wf_item i = true →
  ∃ l, render_item i = l ++ Py.nl ∧ Py.inline l = true.
Proof.
  destruct i as [l | k v]; simpl.
  - intros [Hl _]%andb_prop. by exists l.
  - intros [[Hk _]%andb_prop Hv]%andb_prop.
    assert (Py.inline v = true) as Hv'.
    { unfold wf_value in Hv. by apply andb_prop in Hv as [[? _]%andb_prop _]. }
    exists (prefix ++ " " ++ k ++ ": " ++ v). split; [apply kv_line_eq |].
    rewrite !inline_app, Hk, Hv'. done.
Qed.

Lemma readlines_render_cons (i : item) (items : list item) :
  wf_item i = true →
  Py.readlines (render (i :: items))
  = render_item i :: Py.readlines (render items).
Proof.
  intros (l & E & Hl)%render_item_line. unfold render.
  rewrite map_cons, concat_empty_cons, E, append_assoc.
  by apply readlines_line.
Qed.

Lemma add_logs_nil (w : world) : add_logs [] w = w.
Proof. destruct w. unfold add_logs. simpl. by rewrite app_nil_r. Qed.

Lemma add_logs_add_log (r : level * string) (rs : list (level * string))
    (w : world) :
  add_logs rs (add_log r w) = add_logs (r :: rs) w.
Proof. unfold add_logs, add_log. simpl. by rewrite <- app_assoc. Qed.

Lemma dict_update_cons (m : gmap string string) (k v : string)
    (es : list (string * string)) :
  dict_update m ((k, v) :: es) = dict_update (<[k := v]> m) es.
Proof. done. Qed.

Lemma parse_items (path : string) (items : list item) :
  forallb wf_item items = true →
  ∀ (meta : gmap string string) (seen : list string) (w : world),
    (∀ k, is_Some (meta !! k) ↔ k ∈ seen) →
    for_fold (Py.readlines (render items)) meta (parse_line path) w
    = (Ok (dict_update meta (entries_of items)),
       add_logs (duplicate_warnings path (repeats seen (entries_of items).*1))
         w).
Proof.
  induction items as [|i items IH]; intros Hwf meta seen w Hseen.
  - simpl. by rewrite add_logs_nil.
  - simpl in Hwf. apply andb_prop in Hwf as [Hi Hwf].
    rewrite (readlines_render_cons _ _ Hi).
    cbn [for_fold]. unfold bind at 1.
    destruct i as [l | k v].
    + simpl in Hi. apply andb_prop in Hi as [_ Hl%negb_true_iff].
      simpl render_item. rewrite (parse_line_noise _ _ _ _ Hl).
      by apply IH.
    + simpl in Hi. apply andb_prop in Hi as [Hk Hv].
      simpl render_item. rewrite (parse_line_entry _ _ _ _ _ Hk Hv).
      rewrite (IH Hwf _ (k :: seen)).
      * cbn [entries_of fmap list_fmap fst repeats].
        rewrite dict_update_cons. f_equal.
        unfold warn_if_known.
        destruct (decide (is_Some (meta !! k))) as [Hin | Hin].
        -- rewrite bool_decide_eq_true_2 by by apply Hseen.
           simpl. by rewrite add_logs_add_log.
        -- rewrite bool_decide_eq_false_2 by by rewrite <- Hseen.
           done.
      * intros k'. rewrite lookup_insert_is_Some, elem_of_cons, Hseen.
        split.
        -- intros [-> | [_ H]]; [by left | by right].
        -- intros [-> | H]; [by left |].
           destruct (decide (k = k')) as [-> | Hne]; [by left | by right].
Qed.

Lemma dict_update_lookup_notin (k : string) (es : list (string * string)) :
  k ∉ es.*1 → ∀ m : gmap string string, dict_update m es !! k = m !! k.
Proof.
  induction es as [|[k' v'] es IH]; intros Hk m; [done |].
  rewrite dict_update_cons. rewrite fmap_cons, not_elem_of_cons in Hk.
  destruct Hk as [Hne Hk]. rewrite (IH Hk). by apply lookup_insert_ne.
Qed.

Lemma dict_update_last (m : gmap string string) (k v : string)
    (e1 e2 : list (string * string)) :
  k ∉ e2.*1 → dict_update m (e1 ++ (k, v) :: e2) !! k = Some v.
Proof.
  intros Hk. unfold dict_update. rewrite foldl_app. simpl.
  fold (dict_update (<[k:=v]> (foldl (λ m kv, <[kv.1:=kv.2]> m) m e1)) e2).
  rewrite (dict_update_lookup_notin _ _ Hk). apply lookup_insert_eq.
Qed.

Lemma parse_metadata_items (self : t) (path : string) (items : list item)
    (w : world) :
  Os.read (fs w) path = Ok (render items) →
  forallb wf_item items = true →
  _parse_metadata self path w
  = (Ok (dict_update ∅ (entries_of items)),
     add_logs (duplicate_warnings path (repeats [] (entries_of items).*1)) w).
Proof.
  intros Hread Hwf. unfold _parse_metadata, bind, open_read, lift_fs.
  rewrite Hread. apply (parse_items path items Hwf ∅ [] w).
  intros k. rewrite lookup_empty, elem_of_nil. split; [by intros [] | done].
Qed.

End ParseFile.
(** ** The claims on the metadata lines *)

Section Codec.

Import BenchmarkReporter.





(** The sample of the specification: [a: 1], [b: 2], [a: 3] between lines of
    other output give [a] the value 3 and [b] the value 2, with one warning,
    for [a]. *)
Example parse_metadata_noisy :
  _parse_metadata Sample.reporter "out" Sample.noisy_world
  = (Ok {["a" := "3"; "b" := "2"]},
     add_logs [(WARNING, duplicate_warning "a" "out")] Sample.noisy_world).
Proof. vm_compute. reflexivity. Qed.

(** A file without tagged lines is read as the empty record. *)
Lemma parse_metadata_no_metadata (self : t) (path : string)
    (lines : list string) (w : world) :
  Os.read (fs w) path = Ok (render (map Noise lines)) →
  forallb wf_item (map Noise lines) = true →
  _parse_metadata self path w = (Ok ∅, w).
Proof.
  intros Hread Hwf. rewrite (parse_metadata_items self path _ w Hread Hwf).
  assert (entries_of (map Noise lines) = []) as ->
    by (clear; induction lines; done).
  simpl. by rewrite add_logs_nil.
Qed.

Section RoundTrip.

Local Arguments String.append : simpl nomatch.

Lemma entries_of_map_Entry (data : list (string * string)) :
  entries_of (map (λ kv, Entry kv.1 kv.2) data) = data.
Proof. induction data as [|[k v] data IH]; simpl; [done | by rewrite IH]. Qed.

Lemma wf_map_Entry (data : list (string * string)) :
  forallb (λ kv, wf_key kv.1 && wf_value kv.2) data = true →
  forallb wf_item (map (λ kv, Entry kv.1 kv.2) data) = true.
Proof.
  induction data as [|[k v] data IH]; simpl; [done |].
  intros [-> H]%andb_prop. by rewrite (IH H).
Qed.

Lemma render_map_Entry (data : list (string * string)) :
  render (map (λ kv, Entry kv.1 kv.2) data)
  = String.concat "" (map (λ kv, kv_line kv.1 kv.2) data).
Proof. unfold render. by rewrite map_map. Qed.

(** What [report] prints is the two markers around the entries. *)
Lemma report_text_entries (runner : BenchmarkRunner.t)
    (data : list (string * string)) :
  report_text runner data
  = begin_line ++ render (report_entries runner data) ++ end_line.
Proof.
  unfold report_text, report_entries. f_equal.
  unfold render at 1. rewrite !map_cons, !concat_empty_cons.
  fold (render (map (λ kv, Entry kv.1 kv.2) data)).
  rewrite render_map_Entry. simpl render_item.
  by rewrite !append_assoc.
Qed.

Lemma dict_update_elem (m : gmap string string) (k v : string)
    (es : list (string * string)) :
  NoDup es.*1 → (k, v) ∈ es → dict_update m es !! k = Some v.
Proof.
  intros Hnd (e1 & e2 & ->)%list_elem_of_split.
  apply dict_update_last.
  rewrite fmap_app, fmap_cons in Hnd. apply NoDup_app in Hnd as (_ & _ & Hnd).
  by apply NoDup_cons in Hnd as [? _].
Qed.

End RoundTrip.
(** The lines [report] prints between the two markers, taken by
    themselves, are read back as the record together with the target and the
    instance that [report] puts before it: when keys and values fit on a
    line, keys hold no [": "] and values are not empty and do not end in
    white space, every entry of the record [data] is in the result, and a
    key that is not in [data] is read as in the two entries of the runner. *)
Lemma report_entries_roundtrip (reporter : t) (runner : BenchmarkRunner.t)
    (path : string) (data : list (string * string)) (w : world) :
  Os.read (fs w) path = Ok (render (report_entries runner data)) →
  wf_value (BenchmarkRunner.target runner) = true →
  wf_value (BenchmarkRunner.instance runner) = true →
  forallb (λ kv, wf_key kv.1 && wf_value kv.2) data = true →
  NoDup data.*1 →
  ∃ (meta : gmap string string) (warned : list string),
    _parse_metadata reporter path w
    = (Ok meta, add_logs (duplicate_warnings path warned) w)
    ∧ meta = dict_update
               {["target" := BenchmarkRunner.target runner;
                 "instance" := BenchmarkRunner.instance runner]} data
    ∧ (∀ k v, (k, v) ∈ data → meta !! k = Some v)
    ∧ (∀ k, k ∉ data.*1 →
         meta !! k
         = ({["target" := BenchmarkRunner.target runner;
              "instance" := BenchmarkRunner.instance runner]}
             : gmap string string) !! k)
    ∧ warned = repeats [] ("target" :: "instance" :: data.*1).
Proof.
  intros Hread Ht Hi Hdata Hnd.
  assert (forallb wf_item (report_entries runner data) = true) as Hwf.
  { unfold report_entries. cbn [forallb wf_item].
    rewrite Ht, Hi, (wf_map_Entry _ Hdata). done. }
  assert (entries_of (report_entries runner data)
          = ("target", BenchmarkRunner.target runner)
            :: ("instance", BenchmarkRunner.instance runner) :: data) as He.
  { unfold report_entries. cbn [entries_of]. by rewrite entries_of_map_Entry. }
  eexists _, _. split.
  { rewrite (parse_metadata_items reporter path _ w Hread Hwf), He. done. }
  assert (dict_update ∅
            (("target", BenchmarkRunner.target runner)
             :: ("instance", BenchmarkRunner.instance runner) :: data)
          = dict_update
              {["target" := BenchmarkRunner.target runner;
                "instance" := BenchmarkRunner.instance runner]} data) as ->.
  { rewrite !dict_update_cons. reflexivity. }
  split; [done |]. split; [|split; [|done]].
  - intros k v Hin. by apply dict_update_elem.
  - intros k Hk. by apply dict_update_lookup_notin.
Qed.
Lemma report_entries_roundtrip_witness :
  ∃ (meta : gmap string string) (warned : list string),
    _parse_metadata Sample.reporter "out" Sample.entries_world
    = (Ok meta,
       add_logs (duplicate_warnings "out" warned) Sample.entries_world)
    ∧ meta = dict_update {["target" := "spec2006"; "instance" := "clang"]}
               Sample.data
    ∧ (∀ k v, (k, v) ∈ Sample.data → meta !! k = Some v)
    ∧ (∀ k, k ∉ Sample.data.*1 →
         meta !! k
         = ({["target" := "spec2006"; "instance" := "clang"]}
             : gmap string string) !! k)
    ∧ warned = repeats [] ("target" :: "instance" :: Sample.data.*1).
Proof.
  apply (report_entries_roundtrip Sample.reporter Sample.runner "out"
           Sample.data Sample.entries_world).
  - vm_compute. reflexivity.
  - vm_compute. reflexivity.
  - vm_compute. reflexivity.
  - vm_compute. reflexivity.
  - unfold Sample.data. cbn [fmap list_fmap fst].
    apply NoDup_cons. split.
    + rewrite list_elem_of_singleton. discriminate.
    + apply NoDup_singleton.
Defined.

(** A line that has the prefix but no space after it is read all the same,
    the character after the prefix being dropped. *)
Example parse_line_no_space :
  parse_line "out" ∅ ("[setup-report]Xa: 1" ++ Py.nl) Sample.empty
  = (Ok {["a" := "1"]}, Sample.empty).
Proof. vm_compute. reflexivity. Qed.

Section Markers.

Local Arguments String.append : simpl nomatch.

Lemma parse_line_begin (path : string) (meta : gmap string string)
    (w : world) :
  parse_line path meta begin_line w = (Raise ValueError, w).
Proof. reflexivity. Qed.

Lemma parse_line_end (path : string) (meta : gmap string string)
    (w : world) :
  parse_line path meta end_line w = (Raise ValueError, w).
Proof. reflexivity. Qed.

Lemma parse_metadata_begins (self : t) (path rest : string) (w : world) :
  Os.read (fs w) path = Ok (begin_line ++ rest) →
  _parse_metadata self path w = (Raise ValueError, w).
Proof.
  intros Hread. unfold _parse_metadata, bind, open_read, lift_fs.
  rewrite Hread.
  change begin_line with ((prefix ++ " begin") ++ Py.nl).
  rewrite append_assoc, readlines_line by done.
  cbn [for_fold]. unfold bind.
  change ((prefix ++ " begin") ++ Py.nl) with begin_line.
  by rewrite parse_line_begin.
Qed.

End Markers.

(** C2.  A file that starts with the marker [report] prints first makes the
    parser raise [ValueError]: the line has the prefix and no [": "], and
    the two names cannot be unpacked from the one piece. *)
Theorem parse_metadata_marker_raises (self : t) (rest : string) :
  let w := Sample.with_file "out" (begin_line ++ rest) in
  _parse_metadata self "out" w = (Raise ValueError, w).
Proof. intros w. by apply (parse_metadata_begins self "out" rest). Qed.

(** C5.  Collecting over the result file of a run raises [ValueError] after
    the name of the file was printed, and prints no record for it. *)
Theorem collect_raises_on_report (pformat : gmap string string → string) :
  collect pformat Sample.reporter ["run/spec2006/clang"] Sample.results
  = (Raise ValueError,
     set_console ("file: run/spec2006/clang/bzip2" ++ Py.nl) Sample.results).
Proof. vm_compute. reflexivity. Qed.

End Codec.
(** ** Appending to a file *)

Section Append.

Local Arguments String.append : simpl nomatch.

Lemma append_at_twice (cs : list string) (a b : string) :
  ∀ n : Os.node,
    match Os.append_at cs a n with
    | Ok n' => ∃ n'', Os.append_at cs b n' = Ok n''
                      ∧ Os.append_at cs (a ++ b) n = Ok n''
    | Raise e => Os.append_at cs (a ++ b) n = Raise e
    end.
Proof.
  induction cs as [|c cs IH]; intros [content | es]; simpl; try done.
  - eexists. by rewrite append_assoc.
  - destruct (es !! c) as [n1 |] eqn:E.
    + specialize (IH n1). destruct (Os.append_at cs a n1) as [n2 | e].
      * destruct IH as (n3 & H1 & H2). simpl.
        rewrite lookup_insert_eq, H1, H2. eexists.
        by rewrite insert_insert_eq.
      * by rewrite IH.
    + destruct cs; [|done]. simpl. eexists.
      by rewrite lookup_insert_eq, insert_insert_eq.
Qed.

Lemma append_at_read (cs : list string) (text : string) :
  ∀ (n : Os.node) (c : string),
    read_at cs n = Some c →
    ∃ n', Os.append_at cs text n = Ok n' ∧ read_at cs n' = Some (c ++ text).
Proof.
  unfold read_at.
  induction cs as [|x cs IH]; intros [content | es] c; simpl; try done.
  - intros [= ->]. by eexists.
  - destruct (es !! x) as [n1 |] eqn:E; [|done].
    intros H. destruct (IH n1 c H) as (n2 & -> & Hr).
    eexists. split; [done |]. simpl. by rewrite lookup_insert_eq.
Qed.

Lemma append_at_created (cs : list string) (text : string) :
  ∀ n n' : Os.node,
    Os.append_at cs text n = Ok n' →
    read_at cs n' = Some (default "" (read_at cs n) ++ text).
Proof.
  unfold read_at.
  induction cs as [|x cs IH]; intros [content | es] n'; simpl; try done.
  - by intros [= <-].
  - destruct (es !! x) as [n1 |] eqn:E.
    + destruct (Os.append_at cs text n1) as [n2 |] eqn:E2; [|done].
      intros [= <-]. simpl. rewrite lookup_insert_eq. by apply IH.
    + destruct cs; [|done]. intros [= <-]. simpl.
      by rewrite lookup_insert_eq.
Qed.

Lemma append_at_frame (cs : list string) (text : string) :
  ∀ (n n' : Os.node) (cs' : list string),
    Os.append_at cs text n = Ok n' → cs' ≠ cs →
    read_at cs' n' = read_at cs' n.
Proof.
  unfold read_at.
  induction cs as [|x cs IH]; intros [content | es] n' cs'; simpl; try done.
  - intros [= <-] Hne. destruct cs'; done.
  - intros H Hne. destruct cs' as [|y cs'].
    { destruct (es !! x) as [n1 |]; [destruct (Os.append_at cs text n1) |
        destruct cs]; by simplify_eq. }
    destruct (decide (y = x)) as [-> | Hy].
    + assert (cs' ≠ cs) as Hne' by congruence.
      destruct (es !! x) as [n1 |] eqn:E.
      * destruct (Os.append_at cs text n1) as [n2 |] eqn:E2; [|done].
        simplify_eq. simpl. rewrite lookup_insert_eq, E. by eapply IH.
      * destruct cs; [|done]. simplify_eq. simpl.
        rewrite lookup_insert_eq, E. by destruct cs'.
    + assert (∀ n1, (<[x := n1]> es) !! y = es !! y) as Hl
        by (intros; by apply lookup_insert_ne).
      destruct (es !! x) as [n1 |] eqn:E.
      * destruct (Os.append_at cs text n1) as [n2 |] eqn:E2; [|done].
        simplify_eq. simpl. by rewrite Hl.
      * destruct cs; [|done]. simplify_eq. simpl. by rewrite Hl.
Qed.

End Append.

(** ** What the runner prints *)

Section Printing.

Local Arguments String.append : simpl nomatch.

Lemma sys_write_seq (a b : string) (w : world) :
  (_ <- sys_write a; sys_write b) w = sys_write (a ++ b) w.
Proof.
  unfold bind, sys_write, update_fs, Os.append.
  destruct w as [n con snk out lg]. destruct out as [| | p]; simpl.
  - unfold set_console. simpl. by rewrite append_assoc.
  - unfold set_sink. simpl. by rewrite append_assoc.
  - pose proof (append_at_twice (Os.components p) a b n) as H.
    destruct (Os.append_at (Os.components p) a n) as [n1 | e]; simpl.
    + destruct H as (n2 & -> & ->). done.
    + by rewrite H.
Qed.

Lemma sys_write_then {A} (a b : string) (k : M A) (w : world) :
  (_ <- sys_write a; _ <- sys_write b; k) w = (_ <- sys_write (a ++ b); k) w.
Proof.
  pose proof (sys_write_seq a b w) as H. unfold bind in *.
  destruct (sys_write a w) as [[[] | e] w1].
  - rewrite <- H. by destruct (sys_write b w1) as [[[] | e] w2].
  - by rewrite <- H.
Qed.

Lemma for_each_print (data : list (string * string)) :
  ∀ (a b : string) (w : world),
    (_ <- sys_write a;
     _ <- for_each data (λ kv, print [prefix; kv.1 ++ ":"; kv.2]);
     sys_write b) w
    = sys_write
        (a ++ String.concat "" (map (λ kv, kv_line kv.1 kv.2) data) ++ b) w.
Proof.
  induction data as [|kv data IH]; intros a b w.
  - simpl. apply sys_write_seq.
  - rewrite map_cons, concat_empty_cons, append_assoc, <- append_assoc.
    rewrite <- IH. cbn [for_each]. unfold print at 1. fold (kv_line kv.1 kv.2).
    rewrite <- sys_write_then. unfold bind.
    destruct (sys_write a w) as [[[] | e] w1]; [|done].
    by destruct (sys_write (kv_line kv.1 kv.2) w1) as [[[] | e] w2].
Qed.

Lemma report_writes (runner : BenchmarkRunner.t)
    (data : list (string * string)) (w : world) :
  BenchmarkRunner.report runner data w
  = sys_write (report_text runner data) w.
Proof.
  unfold BenchmarkRunner.report, report_text, print.
  fold begin_line end_line.
  fold (kv_line "target" (BenchmarkRunner.target runner)).
  fold (kv_line "instance" (BenchmarkRunner.instance runner)).
  rewrite !sys_write_then. rewrite for_each_print.
  by rewrite !append_assoc.
Qed.

End Printing.

(** ** Where the footer goes *)

Section Footer.

Import BenchmarkRunner.

Variable derive : context → string → string → list (string * string).

Lemma file_content_read_at (w : world) (p : string) :
  file_content w p = read_at (Os.components p) (fs w).
Proof.
  unfold file_content, read_at, Os.read, Os.stat.
  by destruct (Os.resolve (Os.components p) (fs w)) as [[c | es] | e].
Qed.

Lemma file_content_Some (w : world) (p c : string) :
  file_content w p = Some c ↔ Os.read (fs w) p = Ok c.
Proof.
  unfold file_content. destruct (Os.read (fs w) p); split; congruence.
Qed.

(** Opening a file for appending and writing a text to it. *)
Lemma open_append_write (p text : string) (w : world) (n : Os.node) :
  Os.append (fs w) p text = Ok n →
  (_ <- open_append p; redirect_stdout (ToFile p) (sys_write text)) w
  = (Ok tt, set_fs n w).
Proof.
  intros Happ. unfold bind, open_append, update_fs, redirect_stdout, Os.append.
  pose proof (append_at_twice (Os.components p) "" text (fs w)) as H.
  unfold Os.append in Happ. change ("" ++ text) with text in H.
  rewrite Happ in H.
  destruct (Os.append_at (Os.components p) "" (fs w)) as [n1 | e];
    [|done].
  destruct H as (n2 & H1 & [= <-]).
  unfold sys_write, update_fs, Os.append. simpl. rewrite H1.
  by destruct w.
Qed.

Lemma same_but_file_append (p text : string) (w : world) (n : Os.node) :
  Os.append (fs w) p text = Ok n → same_but_file p w (set_fs n w).
Proof.
  intros Happ. split; [|done]. intros q Hq.
  rewrite !file_content_read_at. simpl.
  by apply (append_at_frame _ _ _ _ _ Happ).
Qed.

Lemma print_footer_file (self : t) (j : job) (w : world) (p c : string) :
  job_outfile j = Some p → file_content w p = Some c →
  ∃ n, Os.append (fs w) p (footer_text derive self c) = Ok n
       ∧ _print_footer derive self j w
         = (Ok tt, set_fs n (add_log (DEBUG, "appending metadata to " ++ p) w))
       ∧ read_at (Os.components p) n = Some (c ++ footer_text derive self c).
Proof.
  intros Hout Hc. rewrite file_content_read_at in Hc.
  destruct (append_at_read _ (footer_text derive self c) _ _ Hc)
    as (n & Happ & Hread).
  exists n. split; [done |]. split; [|done].
  unfold _print_footer. rewrite Hout.
  unfold bind at 1. unfold log_debug at 1.
  unfold bind at 1. unfold open_read at 1, lift_fs.
  assert (Os.read (fs (add_log (DEBUG, "appending metadata to " ++ p) w)) p
          = Ok c) as ->.
  { apply file_content_Some. by rewrite file_content_read_at. }
  unfold report_result.
  pose proof (open_append_write p (footer_text derive self c)
                (add_log (DEBUG, "appending metadata to " ++ p) w) n Happ)
    as H.
  unfold bind, redirect_stdout in H |- *.
  destruct (open_append p _) as [[[] | e] w1]; [|done].
  rewrite report_writes. exact H.
Qed.

Lemma print_footer_tee (self : t) (j : job) (w : world) :
  job_outfile j = None → teeout j = true →
  _print_footer derive self j w
  = sys_write (footer_text derive self (stdout j)) w.
Proof.
  intros Hout Htee. unfold _print_footer. rewrite Hout, Htee.
  unfold report_result. by rewrite report_writes.
Qed.

Lemma print_footer_runlog (self : t) (j : job) (w : world) (n : Os.node) :
  job_outfile j = None → teeout j = false →
  Os.append (fs w) (runlog (ctx self)) (footer_text derive self (stdout j))
  = Ok n →
  _print_footer derive self j w = (Ok tt, set_fs n w).
Proof.
  intros Hout Htee Happ. unfold _print_footer. rewrite Hout, Htee.
  unfold report_result.
  pose proof (open_append_write _ _ w n Happ) as H.
  unfold bind, redirect_stdout in H |- *.
  destruct (open_append (runlog (ctx self)) w) as [[[] | e] w1]; [|done].
  rewrite report_writes. exact H.
Qed.


Lemma append_any_text (p a b : string) (n n1 : Os.node) :
  Os.append n p a = Ok n1 → ∃ n2, Os.append n p b = Ok n2.
Proof.
  unfold Os.append. intros H.
  pose proof (append_at_twice (Os.components p) "" a n) as Ha.
  pose proof (append_at_twice (Os.components p) "" b n) as Hb.
  change ("" ++ a) with a in Ha. change ("" ++ b) with b in Hb.
  destruct (Os.append_at (Os.components p) "" n) as [n0 | e].
  - destruct Hb as (n2 & _ & Hb). by exists n2.
  - congruence.
Qed.

(** C3.  Where [_print_footer] prints depends on whether the job has an
    output file and, if not, on its tee flag, and is one place only: the
    output file, whose content grows by the footer while every other file,
    the terminal and the reporter's stream stay as they were; or the
    terminal, with the file system untouched; or the run log, which is
    created if need be, again leaving all else as it was. *)
Theorem print_footer_destination (self : t) (j : job) (w : world) :
  sys_stdout w = Console →
  (∀ p c, job_outfile j = Some p → file_content w p = Some c →
     ∃ w', _print_footer derive self j w = (Ok tt, w')
           ∧ file_content w' p = Some (c ++ footer_text derive self c)
           ∧ same_but_file p w w')
  ∧ (job_outfile j = None → teeout j = true →
     _print_footer derive self j w
     = (Ok tt,
        set_console (console w ++ footer_text derive self (stdout j)) w))
  ∧ (job_outfile j = None → teeout j = false →
     ∀ n, Os.append (fs w) (runlog (ctx self)) "" = Ok n →
     ∃ w', _print_footer derive self j w = (Ok tt, w')
           ∧ file_content w' (runlog (ctx self))
             = Some (default "" (file_content w (runlog (ctx self)))
                     ++ footer_text derive self (stdout j))
           ∧ same_but_file (runlog (ctx self)) w w').
Proof.
  intros Hstd. split; [|split].
  - intros p c Hout Hc.
    destruct (print_footer_file self j w p c Hout Hc) as (n & Happ & -> & Hr).
    eexists. split; [done |]. split.
    + by rewrite file_content_read_at.
    + destruct (same_but_file_append _ _ _ _ Happ) as (Hf & ? & ? & ?).
      split; [|done]. intros q Hq. rewrite <- (Hf q Hq).
      by rewrite !file_content_read_at.
  - intros Hout Htee. rewrite (print_footer_tee self j w Hout Htee).
    unfold sys_write. by rewrite Hstd.
  - intros Hout Htee n Hn.
    destruct (append_any_text _ _ (footer_text derive self (stdout j)) _ _ Hn)
      as (n2 & Happ).
    rewrite (print_footer_runlog self j w n2 Hout Htee Happ).
    eexists. split; [done |]. split.
    + rewrite !file_content_read_at. by apply append_at_created.
    + by apply same_but_file_append with (text := footer_text derive self (stdout j)).
Qed.


End Footer.

Lemma print_footer_destination_witness :
  ∃ w', BenchmarkRunner._print_footer Sample.derive Sample.runner
          Sample.bzip2_job Sample.bzip2_world
        = (Ok tt, w')
        ∧ file_content w' "out"
          = Some (("Running bzip2" ++ Py.nl)
                  ++ report_text Sample.runner Sample.data)
        ∧ same_but_file "out" Sample.bzip2_world w'.
Proof.
  destruct (print_footer_destination Sample.derive Sample.runner
              Sample.bzip2_job Sample.bzip2_world eq_refl)
    as (H & _ & _).
  apply (H "out" ("Running bzip2" ++ Py.nl)); vm_compute; reflexivity.
Defined.

(** ** The reporting modes *)

Section Modes.

Import BenchmarkReporter.

(** What is printed under [redirect_stdout] goes to the stream given, and
    the former binding is back afterwards. *)
Lemma redirect_captures (text : string) (w : world) :
  redirect_stdout Sink (sys_write text) w
  = (Ok tt, set_sink (sink w ++ text) w).
Proof. unfold redirect_stdout, sys_write. by destruct w. Qed.

Lemma getattr_report (self : t) (mode : string) (w : world) :
  getattr self ("report_" ++ mode) w
  = if String.eqb mode "brief" then (Ok (report_brief self), w)
    else if String.eqb mode "full" then (Ok (report_full self), w)
    else if String.eqb mode "csv" then (Ok (report_csv self), w)
    else (Raise AttributeError, w).
Proof.
  unfold getattr.
  change (String.eqb ("report_" ++ mode) "report_brief")
    with (String.eqb mode "brief").
  change (String.eqb ("report_" ++ mode) "report_full")
    with (String.eqb mode "full").
  change (String.eqb ("report_" ++ mode) "report_csv")
    with (String.eqb mode "csv").
  by repeat destruct (String.eqb mode _).
Qed.

Lemma report_cases (self : t) (mode : string) (w : world) :
  report self mode w
  = if String.eqb mode "brief" then (Ok tt, w)
    else if String.eqb mode "full" then (Raise NotImplementedError, w)
    else if String.eqb mode "csv" then (Raise NotImplementedError, w)
    else (Raise (FatalError (unknown_mode mode)), w).
Proof.
  unfold report, report_by, redirect_stdout, try_except_AttributeError, bind.
  rewrite getattr_report.
  destruct (String.eqb mode "brief"); [by destruct w |].
  destruct (String.eqb mode "full"); [by destruct w |].
  destruct (String.eqb mode "csv"); by destruct w.
Qed.




(** C10.  Of the three modes only [brief] returns: [full] and [csv] are
    found, so the fatal error for an unknown mode is not raised, and both
    raise [NotImplementedError]. *)
Theorem report_full_csv_not_implemented (self : t) (w : world) :
  report self "full" w = (Raise NotImplementedError, w)
  ∧ report self "csv" w = (Raise NotImplementedError, w)
  ∧ report self "brief" w = (Ok tt, w)
  ∧ (getattr self "report_full" w).1 = Ok (report_full self)
  ∧ (getattr self "report_csv" w).1 = Ok (report_csv self).
Proof. rewrite !report_cases. done. Qed.

End Modes.

(** ** Paths and directories *)

Section Paths.

Local Arguments String.append : simpl nomatch.
Local Arguments Ascii.eqb : simpl never.






























End Paths.


(** ** The walk over the run directories *)

Section Discover.

Import BenchmarkReporter.

Lemma selected_spec (names : list string) (s : string) :
  selected names s = true ↔ names = [] ∨ s ∈ names.
Proof.
  destruct names as [|x names]; simpl.
  - split; [by left | done].
  - rewrite bool_decide_eq_true. split; [by right | by intros [? | ?]].
Qed.

Lemma kept_names_spec (self : t) (w : world) (targetdir : string)
    (names : list string) (s : string) :
  s ∈ kept_names self w targetdir names
  ↔ s ∈ names
    ∧ Os.isdir (fs w) (Os.join targetdir s) = true
    ∧ (instances self = [] ∨ s ∈ instances self).
Proof.
  unfold kept_names.
  rewrite list_elem_of_In, List.filter_In, <- list_elem_of_In.
  by rewrite andb_true_iff, selected_spec.
Qed.

Lemma subdirs_loop (self : t) (targetdir : string) (names : list string) :
  ∀ (dirs : list string) (w : world),
    for_fold names dirs (λ instance_dirs subdir,
      let instancedir := Os.join targetdir subdir in
      d <- path_isdir instancedir;
      if (d : bool) && selected (instances self) subdir
      then ret (instance_dirs ++ [instancedir])%list
      else ret instance_dirs) w
    = (Ok (dirs ++ map (Os.join targetdir)
                     (kept_names self w targetdir names))%list, w).
Proof.
  induction names as [|s names IH]; intros dirs w.
  - simpl. by rewrite app_nil_r.
  - cbn [for_fold]. unfold bind at 1. unfold bind at 1.
    unfold path_isdir at 1, lift_fs. cbn [kept_names List.filter].
    destruct (Os.isdir (fs w) (Os.join targetdir s)
              && selected (instances self) s); unfold ret at 1.
    + rewrite IH. unfold kept_names. by rewrite <- app_assoc.
    + by rewrite IH.
Qed.

Lemma discover_loop (self : t) (w : world) (rundirs : list string) :
  (∀ r, r ∈ rundirs →
     Os.exists_ (fs w) (Os.join r (target self)) = false
     ∨ Os.isdir (fs w) (Os.join r (target self)) = true) →
  ∀ (acc : list string) (w0 : world), fs w0 = fs w →
    for_fold rundirs acc (λ (instance_dirs : list string) rundir,
      let targetdir := Os.join rundir (target self) in
      found <- path_exists targetdir;
      if (found : bool) then
        subdirs <- listdir targetdir;
        for_fold subdirs instance_dirs (λ instance_dirs subdir,
          let instancedir := Os.join targetdir subdir in
          d <- path_isdir instancedir;
          if (d : bool) && selected (instances self) subdir
          then ret (instance_dirs ++ [instancedir])%list
          else ret instance_dirs)
      else
        _ <- log_warning (missing_warning rundir (target self));
        ret instance_dirs) w0
    = (Ok (acc ++ flat_map (contribution self w) rundirs)%list,
       add_logs (missing_warnings self w rundirs) w0).
Proof.
  induction rundirs as [|r rundirs IH]; intros Hroots acc w0 Hfs.
  - simpl. by rewrite app_nil_r, add_logs_nil.
  - assert (∀ r', r' ∈ rundirs →
              Os.exists_ (fs w) (Os.join r' (target self)) = false
              ∨ Os.isdir (fs w) (Os.join r' (target self)) = true) as Hrest.
    { intros r' Hr'. apply Hroots. by right. }
    specialize (IH Hrest).
    cbn [for_fold]. unfold bind at 1. unfold bind at 1.
    unfold path_exists at 1, lift_fs. rewrite Hfs.
    unfold missing_warnings, contribution. cbn [flat_map List.filter].
    unfold lacks_target at 1.
    destruct (Hroots r) as [Hex | Hdir]; [by left | |].
    + rewrite Hex. unfold bind at 1, log_warning at 1, ret at 1.
      assert (∃ e, Os.listdir (fs w) (Os.join r (target self)) = Raise e)
        as [e ->].
      { unfold Os.listdir. unfold Os.exists_ in Hex.
        destruct (Os.stat (fs w) (Os.join r (target self))); [done |].
        by eexists. }
      rewrite IH by done. simpl. by rewrite add_logs_add_log.
    + unfold Os.isdir in Hdir. unfold Os.exists_, Os.listdir.
      destruct (Os.stat (fs w) (Os.join r (target self))) as [[c | es] | e]
        eqn:Est; try done.
      simpl negb. cbv iota.
      unfold bind at 1. unfold listdir at 1, lift_fs, Os.listdir.
      rewrite Hfs, Est.
      rewrite subdirs_loop. rewrite IH by done.
      unfold kept_names. rewrite Hfs. by rewrite <- app_assoc.
Qed.



End Discover.



(** ** More on the parser: which lines it accepts *)

Section Lines.

Local Arguments String.append : simpl nomatch.
Local Arguments Ascii.eqb : simpl never.
Import BenchmarkReporter.

Lemma startswith_slice (s p : string) :
  Py.startswith s p = true → s = p ++ Py.slice_from (String.length p) s.
Proof.
  revert s. induction p as [|c p IH]; intros s; [done |].
  destruct s as [|d s]; [done |]. simpl.
  intros [->%Ascii.eqb_eq Hp]%andb_prop. f_equal. by apply IH.
Qed.

Lemma split1_absent (sep s : string) :
  Py.contains sep s = false → Py.split1 sep s = [s].
Proof.
  induction s as [|c s IH]; simpl.
  - intros [-> _]%orb_false_elim. done.
  - intros [-> Hs]%orb_false_elim. by rewrite (IH Hs).
Qed.

Lemma split1_present (sep s : string) :
  Py.contains sep s = true →
  ∃ a b, Py.split1 sep s = [a; b] ∧ s = a ++ sep ++ b
         ∧ ∀ a' b', s = a' ++ sep ++ b' →
                    (String.length a ≤ String.length a')%nat.
Proof.
  induction s as [|c s IH]; simpl.
  - rewrite orb_false_r. intros H. rewrite H.
    exists "", (Py.slice_from (String.length sep) "").
    split; [done |]. split; [by apply startswith_slice |].
    intros; simpl; lia.
  - destruct (Py.startswith (String c s) sep) eqn:E.
    + intros _.
      exists "", (Py.slice_from (String.length sep) (String c s)).
      split; [done |]. split; [by apply startswith_slice |].
      intros; simpl; lia.
    + simpl. intros (a & b & -> & Hs & Hmin)%IH.
      exists (String c a), b. split; [done |]. split; [by rewrite Hs |].
      intros [|c' a'] b' Heq.
      * simpl in Heq. rewrite Heq, startswith_refl_app in E. done.
      * simpl in Heq. injection Heq as -> Heq. simpl.
        specialize (Hmin _ _ Heq). lia.
Qed.

Lemma contains_app (sep a b : string) : Py.contains sep (a ++ sep ++ b) = true.
Proof.
  induction a as [|c a IH].
  - change ("" ++ sep ++ b) with (sep ++ b).
    destruct (sep ++ b) eqn:E; simpl; rewrite <- E, startswith_refl_app; done.
  - simpl. by rewrite IH, orb_true_r.
Qed.

Lemma length_append (a b : string) :
  String.length (a ++ b) = (String.length a + String.length b)%nat.
Proof. induction a as [|c a IH]; simpl; [done | by rewrite IH]. Qed.

(** The piece before a separator that is not empty does not hold it. *)
Lemma split1_first_clean (sep s a b : string) :
  sep ≠ "" → Py.split1 sep s = [a; b] → Py.contains sep a = false.
Proof.
  intros Hsep Hs. destruct (Py.contains sep s) eqn:E.
  - destruct (split1_present _ _ E) as (a0 & b0 & H0 & Heq & Hmin).
    rewrite H0 in Hs. injection Hs as -> ->.
    destruct (Py.contains sep a) eqn:Ea; [|done].
    destruct (split1_present _ _ Ea) as (a1 & b1 & _ & Ha & _).
    specialize (Hmin a1 (b1 ++ sep ++ b)).
    rewrite Heq in Hmin. rewrite Ha in Hmin at 1.
    rewrite !append_assoc in Hmin. specialize (Hmin eq_refl).
    rewrite Ha, !length_append in Hmin.
    destruct sep; [done |]. simpl in Hmin. lia.
  - rewrite (split1_absent _ _ E) in Hs. done.
Qed.

End Lines.

Section Lines2.

Local Arguments String.append : simpl nomatch.
Local Arguments Ascii.eqb : simpl never.
Import BenchmarkReporter.

Lemma parse_line_untagged (path line : string) (meta : gmap string string)
    (w : world) :
  Py.startswith (Py.rstrip line) prefix = false →
  parse_line path meta line w = (Ok meta, w).
Proof. intros H. unfold parse_line. by rewrite H. Qed.

Lemma parse_line_malformed (path line : string) (meta : gmap string string)
    (w : world) :
  Py.startswith (Py.rstrip line) prefix = true →
  Py.contains ": " (tagged_rest line) = false →
  parse_line path meta line w = (Raise ValueError, w).
Proof.
  intros H Hc. unfold parse_line. rewrite H.
  fold (tagged_rest line). by rewrite (split1_absent _ _ Hc).
Qed.

Lemma parse_line_tagged (path line : string) (meta : gmap string string)
    (w : world) :
  Py.startswith (Py.rstrip line) prefix = true →
  Py.contains ": " (tagged_rest line) = true →
  ∃ name value,
    tagged_rest line = name ++ ": " ++ value
    ∧ Py.contains ": " name = false
    ∧ parse_line path meta line w
      = (Ok (<[name := value]> meta), warn_if_known path meta name w).
Proof.
  intros H Hc. destruct (split1_present _ _ Hc) as (a & b & Hs & Heq & _).
  exists a, b. split; [done |]. split.
  { by apply (split1_first_clean ": " (tagged_rest line) a b). }
  unfold parse_line. rewrite H. fold (tagged_rest line). rewrite Hs.
  unfold bind, warn_if_known. by destruct (decide (is_Some (meta !! a))).
Qed.

(** X1.  Which lines the parser takes: a line that, stripped on the right,
    does not start with the prefix is passed over; a line that does is
    split at the first [": "] after the prefix and the character behind it,
    whatever that character is, and gives a key free of [": "] and a value;
    when there is no [": "] the line makes the parser raise [ValueError]. *)
Theorem parse_line_accepts (path line : string) (meta : gmap string string)
    (w : world) :
  (Py.startswith (Py.rstrip line) prefix = false →
   parse_line path meta line w = (Ok meta, w))
  ∧ (Py.startswith (Py.rstrip line) prefix = true →
     Py.contains ": " (tagged_rest line) = false →
     parse_line path meta line w = (Raise ValueError, w))
  ∧ (Py.startswith (Py.rstrip line) prefix = true →
     Py.contains ": " (tagged_rest line) = true →
     ∃ name value,
       tagged_rest line = name ++ ": " ++ value
       ∧ Py.contains ": " name = false
       ∧ parse_line path meta line w
         = (Ok (<[name := value]> meta), warn_if_known path meta name w)).
Proof.
  split; [apply parse_line_untagged |].
  split; [apply parse_line_malformed | apply parse_line_tagged].
Qed.

End Lines2.

Lemma parse_line_accepts_witness :
  ∃ name value,
    tagged_rest ("[setup-report]Xa: 1: 2  " ++ Py.nl) = name ++ ": " ++ value
    ∧ Py.contains ": " name = false
    ∧ BenchmarkReporter.parse_line "out" ∅
        ("[setup-report]Xa: 1: 2  " ++ Py.nl) Sample.empty
      = (Ok (<[name := value]> ∅), warn_if_known "out" ∅ name Sample.empty).
Proof.
  destruct (parse_line_accepts "out" ("[setup-report]Xa: 1: 2  " ++ Py.nl)
              ∅ Sample.empty) as (_ & _ & H).
  apply H; vm_compute; reflexivity.
Defined.

(** ** More on the parser: values, and tagged lines that cannot be split *)

Section Values.

Local Arguments String.append : simpl nomatch.
Local Arguments Ascii.eqb : simpl never.
Import BenchmarkReporter.

Lemma rstrip_kv_line_any (k v : string) :
  Py.rstrip (kv_line k v)
  = match Py.rstrip v with
    | "" => prefix ++ " " ++ k ++ ":"
    | r => prefix ++ " " ++ k ++ ": " ++ r
    end.
Proof.
  rewrite kv_line_eq, rstrip_app. change (Py.rstrip Py.nl) with "". cbv iota.
  rewrite <- !append_assoc, rstrip_app.
  destruct (Py.rstrip v) as [|c r]; [|by rewrite !append_assoc].
  change ": " with (":" ++ " "). rewrite <- append_assoc, rstrip_app.
  change (Py.rstrip " ") with "". cbv iota.
  rewrite rstrip_app. change (Py.rstrip ":") with ":". cbv iota.
  by rewrite !append_assoc.
Qed.

Lemma blank_rstrip (v : string) : blank v = true ↔ Py.rstrip v = "".
Proof. unfold blank. by destruct (Py.rstrip v). Qed.

Lemma parse_line_entry_loose (path k v : string) (meta : gmap string string)
    (w : world) :
  wf_key k = true → blank v = false →
  parse_line path meta (kv_line k v) w
  = (Ok (<[k := Py.rstrip v]> meta), warn_if_known path meta k w).
Proof.
  intros [_ Hk%negb_true_iff]%andb_prop Hv. unfold parse_line.
  rewrite rstrip_kv_line_any.
  destruct (Py.rstrip v) as [|c r] eqn:E.
  { apply blank_rstrip in E. congruence. }
  rewrite startswith_refl_app.
  change (Py.slice_from _ (prefix ++ " " ++ k ++ ": " ++ String c r))
    with (k ++ ": " ++ String c r).
  rewrite (split1_key_value _ _ Hk). unfold bind, warn_if_known.
  by destruct (decide (is_Some (meta !! k))).
Qed.

Lemma contains_colon_end (k : string) :
  Py.contains ": " k = false → Py.contains ": " (k ++ ":") = false.
Proof.
  induction k as [|c k IH]; [done |]. intros H. simpl in H.
  apply orb_false_elim in H as [Hs Hk].
  change (String c k ++ ":") with (String c (k ++ ":")).
  cbn [Py.contains]. rewrite (IH Hk), orb_false_r.
  simpl in Hs |- *. destruct (Ascii.eqb ":" c); [|done].
  destruct k as [|d k]; [done |]. exact Hs.
Qed.

Lemma tagged_rest_blank (k v : string) :
  blank v = true → tagged_rest (kv_line k v) = k ++ ":".
Proof.
  intros Hv%blank_rstrip. unfold tagged_rest.
  by rewrite rstrip_kv_line_any, Hv.
Qed.

Lemma parse_line_blank (path k v : string) (meta : gmap string string)
    (w : world) :
  wf_key k = true → blank v = true →
  parse_line path meta (kv_line k v) w = (Raise ValueError, w).
Proof.
  intros [_ Hk%negb_true_iff]%andb_prop Hv. apply parse_line_malformed.
  - rewrite rstrip_kv_line_any. apply blank_rstrip in Hv. rewrite Hv.
    apply startswith_refl_app.
  - rewrite (tagged_rest_blank _ _ Hv). by apply contains_colon_end.
Qed.

Lemma render_item_line_loose (i : item) :
  loose_item i = true →
  ∃ l, render_item i = l ++ Py.nl ∧ Py.inline l = true.
Proof.
  destruct i as [l | k v]; simpl.
  - intros [Hl _]%andb_prop. by exists l.
  - intros [[[Hk _]%andb_prop Hv]%andb_prop _]%andb_prop.
    exists (prefix ++ " " ++ k ++ ": " ++ v). split; [apply kv_line_eq |].
    rewrite !inline_app, Hk, Hv. done.
Qed.

Lemma render_cons_more (i : item) (items : list item) (more : string) :
  render (i :: items) ++ more = render_item i ++ render items ++ more.
Proof.
  unfold render. by rewrite map_cons, concat_empty_cons, append_assoc.
Qed.

Lemma readlines_render_cons_more (i : item) (items : list item)
    (more : string) :
  loose_item i = true →
  Py.readlines (render (i :: items) ++ more)
  = render_item i :: Py.readlines (render items ++ more).
Proof.
  intros (l & E & Hl)%render_item_line_loose.
  rewrite render_cons_more, E, append_assoc. by apply readlines_line.
Qed.

Lemma stripped_cons (k v : string) (es : list (string * string)) :
  stripped ((k, v) :: es) = (k, Py.rstrip v) :: stripped es.
Proof. done. Qed.

(** The parser over well-formed lines followed by anything. *)
Lemma parse_items_more (path : string) (items : list item) (more : string) :
  forallb loose_item items = true →
  ∀ (meta : gmap string string) (seen : list string) (w : world),
    (∀ k, is_Some (meta !! k) ↔ k ∈ seen) →
    for_fold (Py.readlines (render items ++ more)) meta (parse_line path) w
    = for_fold (Py.readlines more)
        (dict_update meta (stripped (entries_of items))) (parse_line path)
        (add_logs (duplicate_warnings path (repeats seen (entries_of items).*1))
           w).
Proof.
  induction items as [|i items IH]; intros Hwf meta seen w Hseen.
  - simpl. by rewrite add_logs_nil.
  - simpl in Hwf. apply andb_prop in Hwf as [Hi Hwf].
    rewrite (readlines_render_cons_more _ _ _ Hi).
    cbn [for_fold]. unfold bind at 1.
    destruct i as [l | k v].
    + simpl in Hi. apply andb_prop in Hi as [_ Hl%negb_true_iff].
      simpl render_item. rewrite (parse_line_noise _ _ _ _ Hl).
      by apply IH.
    + simpl in Hi. apply andb_prop in Hi as [[Hk _]%andb_prop Hv].
      apply negb_true_iff in Hv.
      simpl render_item. rewrite (parse_line_entry_loose _ _ _ _ _ Hk Hv).
      rewrite (IH Hwf _ (k :: seen)).
      * cbn [entries_of fmap list_fmap fst repeats].
        rewrite stripped_cons, dict_update_cons. f_equal.
        unfold warn_if_known.
        destruct (decide (is_Some (meta !! k))) as [Hin | Hin].
        -- rewrite bool_decide_eq_true_2 by by apply Hseen.
           simpl. by rewrite add_logs_add_log.
        -- rewrite bool_decide_eq_false_2 by by rewrite <- Hseen.
           done.
      * intros k'. rewrite lookup_insert_is_Some, elem_of_cons, Hseen.
        split.
        -- intros [-> | [_ H]]; [by left | by right].
        -- intros [-> | H]; [by left |].
           destruct (decide (k = k')) as [-> | Hne]; [by left | by right].
Qed.

Lemma parse_metadata_more (self : t) (path : string) (items : list item)
    (more : string) (w : world) :
  Os.read (fs w) path = Ok (render items ++ more) →
  forallb loose_item items = true →
  _parse_metadata self path w
  = for_fold (Py.readlines more)
      (dict_update ∅ (stripped (entries_of items))) (parse_line path)
      (add_logs (duplicate_warnings path (repeats [] (entries_of items).*1))
         w).
Proof.
  intros Hread Hwf. unfold _parse_metadata, bind, open_read, lift_fs.
  rewrite Hread. apply (parse_items_more path items more Hwf ∅ [] w).
  intros k. rewrite lookup_empty, elem_of_nil. split; [by intros [] | done].
Qed.

(** X2.  Values lose the white space at their end: a file of tagged lines
    whose values are not blank, mixed with other output, is read as the
    record of the keys with the stripped values, later lines winning. *)
Theorem parse_metadata_strips_values (self : t) (path : string)
    (items : list item) (w : world) :
  Os.read (fs w) path = Ok (render items) →
  forallb loose_item items = true →
  _parse_metadata self path w
  = (Ok (dict_update ∅ (stripped (entries_of items))),
     add_logs (duplicate_warnings path (repeats [] (entries_of items).*1)) w).
Proof.
  intros Hread Hwf.
  rewrite (parse_metadata_more self path items "" w); [done | | done].
  by rewrite append_nil_r.
Qed.

(** X3.  A tagged line that cannot be split stops the parser wherever it
    stands: when well-formed lines are followed by a line that has the
    prefix but no [": "] behind it, the parser raises [ValueError], whatever
    comes after, and the record read so far is lost; only the warnings for
    the keys repeated before that line are logged. *)
Theorem parse_metadata_malformed_line (self : t) (path : string)
    (items : list item) (bad more : string) (w : world) :
  Os.read (fs w) path = Ok (render items ++ bad ++ Py.nl ++ more) →
  forallb loose_item items = true →
  Py.inline bad = true →
  Py.startswith (Py.rstrip bad) prefix = true →
  Py.contains ": " (Py.slice_from (String.length prefix + 1) (Py.rstrip bad))
  = false →
  _parse_metadata self path w
  = (Raise ValueError,
     add_logs (duplicate_warnings path (repeats [] (entries_of items).*1)) w).
Proof.
  intros Hread Hwf Hbad Hp Hc.
  rewrite (parse_metadata_more self path items _ w Hread Hwf).
  rewrite (readlines_line _ _ Hbad). cbn [for_fold]. unfold bind at 1.
  rewrite parse_line_malformed; [done | |].
  - rewrite rstrip_app. change (Py.rstrip Py.nl) with "". by cbv iota.
  - unfold tagged_rest. rewrite rstrip_app.
    change (Py.rstrip Py.nl) with "". by cbv iota.
Qed.

(** X4.  A value that is empty or all white space cannot be read back: the
    line [report] prints for it ends, once stripped, in the colon, and the
    parser raises [ValueError] there. *)
Theorem parse_metadata_blank_value (self : t) (path : string)
    (items : list item) (k v more : string) (w : world) :
  Os.read (fs w) path = Ok (render items ++ kv_line k v ++ more) →
  forallb loose_item items = true →
  wf_key k = true → Py.inline v = true → blank v = true →
  _parse_metadata self path w
  = (Raise ValueError,
     add_logs (duplicate_warnings path (repeats [] (entries_of items).*1)) w).
Proof.
  intros Hread Hwf Hk Hv Hb.
  rewrite (parse_metadata_more self path items _ w Hread Hwf).
  pose proof Hk as [Hki _]%andb_prop.
  rewrite kv_line_eq, append_assoc, readlines_line.
  - cbn [for_fold]. unfold bind at 1. rewrite <- kv_line_eq.
    by rewrite (parse_line_blank _ _ _ _ _ Hk Hb).
  - by rewrite !inline_app, Hki, Hv.
Qed.

End Values.

Lemma parse_metadata_strips_values_witness :
  BenchmarkReporter._parse_metadata Sample.reporter "out" More.padded_world
  = (Ok (dict_update ∅ [("a", "1"); ("b", "2")]),
     add_logs [] More.padded_world).
Proof.
  rewrite (parse_metadata_strips_values Sample.reporter "out" More.padded
             More.padded_world).
  - vm_compute. reflexivity.
  - vm_compute. reflexivity.
  - vm_compute. reflexivity.
Defined.

Lemma parse_metadata_malformed_line_witness :
  BenchmarkReporter._parse_metadata Sample.reporter "out" More.marked_world
  = (Raise ValueError, add_logs [] More.marked_world).
Proof.
  rewrite (parse_metadata_malformed_line Sample.reporter "out"
             [Entry "a" "1"] "[setup-report] end" "tail" More.marked_world).
  - vm_compute. reflexivity.
  - vm_compute. reflexivity.
  - vm_compute. reflexivity.
  - vm_compute. reflexivity.
  - vm_compute. reflexivity.
  - vm_compute. reflexivity.
Defined.

Lemma parse_metadata_blank_value_witness :
  BenchmarkReporter._parse_metadata Sample.reporter "out" More.blank_world
  = (Raise ValueError, add_logs [] More.blank_world).
Proof.
  rewrite (parse_metadata_blank_value Sample.reporter "out"
             [Entry "a" "1"] "note" "" "tail" More.blank_world).
  - vm_compute. reflexivity.
  - vm_compute. reflexivity.
  - vm_compute. reflexivity.
  - vm_compute. reflexivity.
  - vm_compute. reflexivity.
  - vm_compute. reflexivity.
Defined.

(** ** Writing a record and reading it back *)

Section EncodeDecode.

Local Arguments String.append : simpl nomatch.
Import BenchmarkReporter.

(** What [encode_then_decode] leaves in the file before it parses it. *)
Lemma encode_writes (runner : BenchmarkRunner.t) (path : string)
    (data : list (string * string)) (w : world) (n : Os.node) :
  Os.append (fs w) path (report_text runner data) = Ok n →
  (_ <- open_append path;
   redirect_stdout (ToFile path) (BenchmarkRunner.report runner data)) w
  = (Ok tt, set_fs n w)
  ∧ file_content (set_fs n w) path
    = Some (default "" (file_content w path) ++ report_text runner data).
Proof.
  intros Happ. split.
  - pose proof (open_append_write path (report_text runner data) w n Happ)
      as H.
    unfold bind, redirect_stdout in H |- *.
    destruct (open_append path w) as [[[] | e] w1]; [|done].
    by rewrite report_writes.
  - rewrite !file_content_read_at. simpl.
    by apply append_at_created.
Qed.

(** C1.  Reading back what [report] wrote does not give the record, whatever
    the record is: [report] puts the begin marker before the entries, the
    marker has the prefix and no [": "], and the parser raises [ValueError]
    when it comes to it.  This holds for a file that is new or empty, and
    for one that holds lines of output and well-formed entries already. *)
Theorem encode_then_decode_raises (runner : BenchmarkRunner.t)
    (reporter : t) (path : string) (data : list (string * string))
    (items : list item) (w : world) (n : Os.node) :
  default "" (file_content w path) = render items →
  forallb loose_item items = true →
  Os.append (fs w) path (report_text runner data) = Ok n →
  ∃ w', encode_then_decode runner reporter path data w
        = (Raise ValueError, w')
        ∧ fs w' = n
        ∧ file_content w' path
          = Some (render items ++ report_text runner data).
Proof.
  intros Hbefore Hwf Happ.
  destruct (encode_writes runner path data w n Happ) as [Hrun Hfile].
  rewrite Hbefore in Hfile.
  eexists. split; [|split].
  - unfold encode_then_decode.
    unfold bind at 1. unfold bind at 1 in Hrun.
    destruct (open_append path w) as [[[] | e] w1]; [|done].
    unfold bind at 1. rewrite Hrun.
    apply file_content_Some in Hfile.
    rewrite (parse_metadata_more reporter path items _ _ Hfile Hwf).
    unfold report_text.
    change begin_line with ((prefix ++ " begin") ++ Py.nl).
    rewrite append_assoc, readlines_line by done.
    cbn [for_fold]. unfold bind at 1.
    change ((prefix ++ " begin") ++ Py.nl) with begin_line.
    by rewrite parse_line_begin.
  - done.
  - by rewrite <- Hfile.
Qed.

End EncodeDecode.

Lemma encode_then_decode_raises_witness :
  ∃ w', encode_then_decode Sample.runner Sample.reporter "out" Sample.data
          Sample.empty
        = (Raise ValueError, w')
        ∧ file_content w' "out"
          = Some (report_text Sample.runner Sample.data).
Proof.
  destruct (encode_then_decode_raises Sample.runner Sample.reporter "out"
              Sample.data [] Sample.empty
              (Os.Dir {["out" :=
                 Os.File (report_text Sample.runner Sample.data)]}))
    as (w' & E & _ & Hc); [reflexivity | reflexivity | |].
  - vm_compute. reflexivity.
  - exists w'. split; [exact E | exact Hc].
Defined.

(** ** More on the second loop of [parse_rundirs] *)

Section Collect.

Local Arguments String.append : simpl nomatch.
Import BenchmarkReporter.

Variable pformat : gmap string string → string.
Variable self : t.
Variable items_of : string → list item.

Lemma for_each_app {A} (l1 l2 : list A) (body : A → M unit) (w : world) :
  for_each (l1 ++ l2) body w = (_ <- for_each l1 body; for_each l2 body) w.
Proof.
  revert w. induction l1 as [|x l1 IH]; intros w; [done |].
  cbn [app for_each]. unfold bind.
  destruct (body x w) as [[[] | e] w1]; [|done].
  rewrite IH. done.
Qed.

Lemma after_file_fs (w : world) (p : string) :
  fs (after_file pformat items_of w p) = fs w
  ∧ sys_stdout (after_file pformat items_of w p) = sys_stdout w.
Proof. done. Qed.

Lemma after_files_cons (w : world) (p : string) (paths : list string) :
  after_files pformat items_of w (p :: paths)
  = after_files pformat items_of (after_file pformat items_of w p) paths.
Proof. done. Qed.

Lemma after_files_fs (paths : list string) :
  ∀ w, fs (after_files pformat items_of w paths) = fs w
       ∧ sys_stdout (after_files pformat items_of w paths) = sys_stdout w.
Proof.
  induction paths as [|p paths IH]; intros w; [done |].
  rewrite after_files_cons.
  destruct (IH (after_file pformat items_of w p)) as [-> ->]. done.
Qed.

Lemma after_files_app (w : world) (l1 l2 : list string) :
  after_files pformat items_of w (l1 ++ l2)
  = after_files pformat items_of (after_files pformat items_of w l1) l2.
Proof. unfold after_files. by rewrite foldl_app. Qed.

(** The body of the inner loop on a readable file. *)
Lemma collect_file (w w0 : world) (path : string) :
  fs w0 = fs w → sys_stdout w0 = Console → readable w items_of path →
  (_ <- print ["file:"; path];
   meta <- _parse_metadata self path;
   pprint pformat meta) w0
  = (Ok tt, after_file pformat items_of w0 path).
Proof.
  intros Hfs Hout [Hread Hwf].
  unfold bind at 1. unfold print, sys_write at 1. rewrite Hout.
  unfold bind at 1.
  set (w1 := set_console (console w0 ++ Py.print_text ["file:"; path]) w0).
  assert (Os.read (fs w1) path = Ok (render (items_of path) ++ "")) as Hr1.
  { rewrite append_nil_r. subst w1. simpl. by rewrite Hfs. }
  rewrite (parse_metadata_more self path (items_of path) "" w1 Hr1 Hwf).
  subst w1. simpl. unfold pprint, sys_write. simpl. rewrite Hout.
  unfold after_file, file_report, record_of, add_logs, set_console.
  destruct w0 as [n con snk out lg]; cbn [fs console sink sys_stdout log].
  by rewrite append_assoc.
Qed.

Lemma collect_files (w : world) (idir : string) (names : list string) :
  ∀ w0, fs w0 = fs w → sys_stdout w0 = Console →
    (∀ name, name ∈ names → readable w items_of (Os.join idir name)) →
    for_each names (λ filename,
      _ <- print ["file:"; Os.join idir filename];
      meta <- _parse_metadata self (Os.join idir filename);
      pprint pformat meta) w0
    = (Ok tt, after_files pformat items_of w0 (map (Os.join idir) names)).
Proof.
  induction names as [|name names IH]; intros w0 Hfs Hout Hr; [done |].
  cbn [for_each]. unfold bind at 1.
  rewrite (collect_file w w0 _ Hfs Hout); [| apply Hr; by left].
  rewrite IH; [done | | | ].
  - by rewrite (proj1 (after_file_fs _ _)).
  - by rewrite (proj2 (after_file_fs _ _)).
  - intros n Hn. apply Hr. by right.
Qed.

Lemma collect_dirs (w : world) (dirs : list string) :
  (∀ idir, idir ∈ dirs → ∃ names, Os.listdir (fs w) idir = Ok names) →
  (∀ idir p, idir ∈ dirs → p ∈ listed w idir → readable w items_of p) →
  ∀ w0, fs w0 = fs w → sys_stdout w0 = Console →
    collect pformat self dirs w0
    = (Ok tt, after_files pformat items_of w0 (flat_map (listed w) dirs)).
Proof.
  induction dirs as [|idir dirs IH]; intros Hl Hr w0 Hfs Hout; [done |].
  unfold collect. cbn [for_each flat_map]. cbv zeta.
  unfold bind at 1. unfold bind at 1.
  destruct (Hl idir) as [names Hn]; [by left |].
  unfold listdir at 1, lift_fs. rewrite Hfs, Hn.
  rewrite (collect_files w idir names w0 Hfs Hout).
  - assert (listed w idir = map (Os.join idir) names) as Hlisted
      by (unfold listed; by rewrite Hn).
    rewrite Hlisted, after_files_app.
    apply IH.
    + intros d Hd. apply Hl. by right.
    + intros d p Hd Hp. apply (Hr d); [by right | done].
    + by rewrite (proj1 (after_files_fs _ _)).
    + by rewrite (proj2 (after_files_fs _ _)).
  - intros name Hname. apply (Hr idir); [by left |].
    unfold listed. rewrite Hn. by apply list_elem_of_fmap_2.
Qed.

Lemma after_files_console (paths : list string) :
  ∀ w, console (after_files pformat items_of w paths)
       = console w
         ++ String.concat ""
              (map (λ p, file_report pformat p (record_of (items_of p)))
                 paths).
Proof.
  induction paths as [|p paths IH]; intros w.
  - simpl. by rewrite append_nil_r.
  - rewrite after_files_cons, IH, map_cons, concat_empty_cons. simpl.
    by rewrite append_assoc.
Qed.

Lemma after_files_log (paths : list string) :
  ∀ w, log (after_files pformat items_of w paths)
       = (log w
          ++ flat_map
               (λ p, duplicate_warnings p
                       (repeats [] (entries_of (items_of p)).*1)) paths)%list.
Proof.
  induction paths as [|p paths IH]; intros w.
  - simpl. by rewrite app_nil_r.
  - rewrite after_files_cons, IH. cbn [flat_map]. simpl.
    by rewrite app_assoc.
Qed.

(** X5.  Over instance directories that can be listed and whose entries are
    files of well-formed lines, [collect] returns, having printed for every
    file, in the order of the listing, its path and then the record read
    from it, which is empty for a file without tagged lines; the file system
    is not touched and the warnings for repeated keys are logged. *)
Theorem collect_prints (dirs : list string) (w : world) :
  sys_stdout w = Console →
  (∀ idir, idir ∈ dirs → ∃ names, Os.listdir (fs w) idir = Ok names) →
  (∀ idir p, idir ∈ dirs → p ∈ listed w idir → readable w items_of p) →
  ∃ w', collect pformat self dirs w = (Ok tt, w')
        ∧ console w'
          = console w
            ++ String.concat ""
                 (map (λ p, file_report pformat p (record_of (items_of p)))
                    (flat_map (listed w) dirs))
        ∧ log w'
          = (log w
             ++ flat_map
                  (λ p, duplicate_warnings p
                          (repeats [] (entries_of (items_of p)).*1))
                  (flat_map (listed w) dirs))%list
        ∧ fs w' = fs w
        ∧ (∀ p, entries_of (items_of p) = [] → record_of (items_of p) = ∅).
Proof.
  intros Hout Hl Hr. eexists. split.
  { by apply (collect_dirs w dirs Hl Hr w). }
  split; [apply after_files_console |].
  split; [apply after_files_log |].
  split; [apply after_files_fs |].
  intros p Hp. unfold record_of. by rewrite Hp.
Qed.


(** [collect] up to the first file the parser fails on. *)
Lemma collect_stops (pre_dirs post_dirs : list string) (idir : string)
    (pre post : list string) (name : string) (e : exn)
    (rs : list (level * string)) (w : world) :
  sys_stdout w = Console →
  (∀ d, d ∈ pre_dirs → ∃ names, Os.listdir (fs w) d = Ok names) →
  (∀ d p, d ∈ pre_dirs → p ∈ listed w d → readable w items_of p) →
  Os.listdir (fs w) idir = Ok (pre ++ name :: post)%list →
  (∀ n, n ∈ pre → readable w items_of (Os.join idir n)) →
  (∀ w0, fs w0 = fs w →
         _parse_metadata self (Os.join idir name) w0 = (Raise e, add_logs rs w0)) →
  collect pformat self (pre_dirs ++ idir :: post_dirs) w
  = (Raise e,
     add_logs rs
       (set_console
          (console
             (after_files pformat items_of w
                (flat_map (listed w) pre_dirs ++ map (Os.join idir) pre))
           ++ Py.print_text ["file:"; Os.join idir name])
          (after_files pformat items_of w
             (flat_map (listed w) pre_dirs ++ map (Os.join idir) pre)))).
Proof.
  intros Hout Hl Hr Hn Hpre Hfail.
  unfold collect. rewrite for_each_app. unfold bind at 1.
  pose proof (collect_dirs w pre_dirs Hl Hr w eq_refl Hout) as Hd.
  unfold collect in Hd. rewrite Hd.
  set (w1 := after_files pformat items_of w (flat_map (listed w) pre_dirs)).
  assert (fs w1 = fs w ∧ sys_stdout w1 = Console) as [Hfs1 Hout1].
  { subst w1. destruct (after_files_fs (flat_map (listed w) pre_dirs) w)
      as [-> ->]. done. }
  cbn [for_each]. cbv zeta. unfold bind at 1. unfold bind at 1.
  unfold listdir at 1, lift_fs. rewrite Hfs1, Hn.
  rewrite for_each_app. unfold bind at 1.
  rewrite (collect_files w idir pre w1 Hfs1 Hout1 Hpre).
  rewrite after_files_app. fold w1.
  set (w2 := after_files pformat items_of w1 (map (Os.join idir) pre)).
  assert (fs w2 = fs w ∧ sys_stdout w2 = Console) as [Hfs2 Hout2].
  { subst w2. destruct (after_files_fs (map (Os.join idir) pre) w1)
      as [-> ->]. done. }
  cbn [for_each]. unfold bind at 1. unfold bind at 1.
  unfold print, sys_write at 1. rewrite Hout2. unfold bind at 1.
  rewrite Hfail; [done |]. simpl. exact Hfs2.
Qed.

(** X6.  [collect] does not pass over what is not a regular file: when an
    entry of an instance directory is itself a directory, and the files
    before it were read, the path of the entry is printed and opening it
    raises [IsADirectoryError]; nothing after it is visited. *)
Theorem collect_raises_on_directory (pre_dirs post_dirs : list string)
    (idir : string) (pre post : list string) (name : string) (w : world) :
  sys_stdout w = Console →
  (∀ d, d ∈ pre_dirs → ∃ names, Os.listdir (fs w) d = Ok names) →
  (∀ d p, d ∈ pre_dirs → p ∈ listed w d → readable w items_of p) →
  Os.listdir (fs w) idir = Ok (pre ++ name :: post)%list →
  (∀ n, n ∈ pre → readable w items_of (Os.join idir n)) →
  Os.isdir (fs w) (Os.join idir name) = true →
  ∃ w', collect pformat self (pre_dirs ++ idir :: post_dirs) w
        = (Raise IsADirectoryError, w')
        ∧ console w'
          = console w
            ++ String.concat ""
                 (map (λ p, file_report pformat p (record_of (items_of p)))
                    (flat_map (listed w) pre_dirs ++ map (Os.join idir) pre))
            ++ Py.print_text ["file:"; Os.join idir name]
        ∧ fs w' = fs w.
Proof.
  intros Hout Hl Hr Hn Hpre Hdir.
  rewrite (collect_stops pre_dirs post_dirs idir pre post name
             IsADirectoryError [] w Hout Hl Hr Hn Hpre).
  - eexists. split; [done |]. split.
    + simpl. by rewrite after_files_console, append_assoc.
    + simpl. apply after_files_fs.
  - intros w0 Hfs. unfold _parse_metadata, bind, open_read, lift_fs.
    rewrite Hfs. unfold Os.read. unfold Os.isdir in Hdir.
    destruct (Os.stat (fs w) (Os.join idir name)) as [[c | es] | e];
      try done.
    by rewrite add_logs_nil.
Qed.

(** X7.  [collect] stops at the first file the parser cannot read: when a
    file holds, after well-formed lines, a line with the prefix and no
    [": "], as every file does in which a runner printed its markers, the
    files before it are reported, its path is printed and [ValueError] is
    raised; no record is printed for it and nothing after it is visited. *)
Theorem collect_stops_at_malformed (pre_dirs post_dirs : list string)
    (idir : string) (pre post : list string) (name : string)
    (items : list item) (bad more : string) (w : world) :
  sys_stdout w = Console →
  (∀ d, d ∈ pre_dirs → ∃ names, Os.listdir (fs w) d = Ok names) →
  (∀ d p, d ∈ pre_dirs → p ∈ listed w d → readable w items_of p) →
  Os.listdir (fs w) idir = Ok (pre ++ name :: post)%list →
  (∀ n, n ∈ pre → readable w items_of (Os.join idir n)) →
  Os.read (fs w) (Os.join idir name)
  = Ok (render items ++ bad ++ Py.nl ++ more) →
  forallb loose_item items = true →
  Py.inline bad = true →
  Py.startswith (Py.rstrip bad) prefix = true →
  Py.contains ": " (tagged_rest bad) = false →
  ∃ w', collect pformat self (pre_dirs ++ idir :: post_dirs) w
        = (Raise ValueError, w')
        ∧ console w'
          = console w
            ++ String.concat ""
                 (map (λ p, file_report pformat p (record_of (items_of p)))
                    (flat_map (listed w) pre_dirs ++ map (Os.join idir) pre))
            ++ Py.print_text ["file:"; Os.join idir name]
        ∧ fs w' = fs w.
Proof.
  intros Hout Hl Hr Hn Hpre Hread Hwf Hbad Hp Hc.
  rewrite (collect_stops pre_dirs post_dirs idir pre post name ValueError
             (duplicate_warnings (Os.join idir name)
                (repeats [] (entries_of items).*1))
             w Hout Hl Hr Hn Hpre).
  - eexists. split; [done |]. split.
    + simpl. by rewrite after_files_console, append_assoc.
    + simpl. apply after_files_fs.
  - intros w0 Hfs.
    rewrite (parse_metadata_more self _ items (bad ++ Py.nl ++ more) w0);
      [| by rewrite Hfs | done].
    rewrite (readlines_line _ _ Hbad). cbn [for_fold]. unfold bind at 1.
    rewrite parse_line_malformed; [done | |].
    + rewrite rstrip_app. change (Py.rstrip Py.nl) with "". by cbv iota.
    + unfold tagged_rest in *. rewrite rstrip_app.
      change (Py.rstrip Py.nl) with "". by cbv iota.
Qed.

End Collect.

Lemma collect_prints_witness :
  ∃ w', BenchmarkReporter.collect More.show Sample.reporter
          ["run/spec2006/clang"] More.tidy = (Ok tt, w')
        ∧ console w'
          = console More.tidy
            ++ String.concat ""
                 (map (λ p, file_report More.show p
                              (record_of (More.tidy_items p)))
                    (flat_map (listed More.tidy) ["run/spec2006/clang"]))
        ∧ log w'
          = (log More.tidy
             ++ flat_map
                  (λ p, duplicate_warnings p
                          (repeats [] (entries_of (More.tidy_items p)).*1))
                  (flat_map (listed More.tidy) ["run/spec2006/clang"]))%list
        ∧ fs w' = fs More.tidy
        ∧ (∀ p, entries_of (More.tidy_items p) = [] →
                record_of (More.tidy_items p) = ∅).
Proof.
  apply (collect_prints More.show Sample.reporter More.tidy_items
           ["run/spec2006/clang"] More.tidy).
  - reflexivity.
  - intros d [-> | []%elem_of_nil]%elem_of_cons.
    eexists. vm_compute. reflexivity.
  - intros d p [-> | []%elem_of_nil]%elem_of_cons Hp.
    assert (listed More.tidy "run/spec2006/clang"
            = ["run/spec2006/clang/mcf"; "run/spec2006/clang/bzip2"]) as E
      by (vm_compute; reflexivity).
    rewrite E in Hp.
    apply elem_of_cons in Hp as [-> | Hp];
      [| apply elem_of_cons in Hp as [-> | []%elem_of_nil]].
    + split; vm_compute; reflexivity.
    + split; vm_compute; reflexivity.
Defined.

Lemma collect_raises_on_directory_witness :
  ∃ w', BenchmarkReporter.collect More.show Sample.reporter
          ([] ++ "inst" :: []) More.nested
        = (Raise IsADirectoryError, w')
        ∧ console w'
          = console More.nested
            ++ String.concat ""
                 (map (λ p, file_report More.show p
                              (record_of (More.tidy_items p)))
                    (flat_map (listed More.nested) []
                     ++ map (Os.join "inst") []))
            ++ Py.print_text ["file:"; Os.join "inst" "sub"]
        ∧ fs w' = fs More.nested.
Proof.
  apply (collect_raises_on_directory More.show Sample.reporter
           More.tidy_items [] [] "inst" [] [] "sub" More.nested).
  - reflexivity.
  - intros d []%elem_of_nil.
  - intros d p []%elem_of_nil.
  - vm_compute. reflexivity.
  - intros n []%elem_of_nil.
  - vm_compute. reflexivity.
Defined.

Lemma collect_stops_at_malformed_witness :
  ∃ w', BenchmarkReporter.collect More.show Sample.reporter
          ([] ++ "run/spec2006/clang" :: []) Sample.results
        = (Raise ValueError, w')
        ∧ console w'
          = console Sample.results
            ++ String.concat ""
                 (map (λ p, file_report More.show p
                              (record_of (More.tidy_items p)))
                    (flat_map (listed Sample.results) []
                     ++ map (Os.join "run/spec2006/clang") []))
            ++ Py.print_text ["file:"; Os.join "run/spec2006/clang" "bzip2"]
        ∧ fs w' = fs Sample.results.
Proof.
  apply (collect_stops_at_malformed More.show Sample.reporter
           More.tidy_items [] [] "run/spec2006/clang" [] [] "bzip2"
           [Noise "Running bzip2"] "[setup-report] begin"
           (kv_line "target" "spec2006" ++ kv_line "instance" "clang"
            ++ kv_line "status" "ok" ++ kv_line "runtime" "12.5" ++ end_line)
           Sample.results).
  - reflexivity.
  - intros d []%elem_of_nil.
  - intros d p []%elem_of_nil.
  - vm_compute. reflexivity.
  - intros n []%elem_of_nil.
  - vm_compute. reflexivity.
  - vm_compute. reflexivity.
  - vm_compute. reflexivity.
  - vm_compute. reflexivity.
  - vm_compute. reflexivity.
Defined.

(** ** More on the first loop of [parse_rundirs], and the two together *)

Section Walk.

Import BenchmarkReporter.

Variable self : t.

Lemma isdir_listdir (n : Os.node) (p : string) :
  Os.isdir n p = true → ∃ names, Os.listdir n p = Ok names.
Proof.
  unfold Os.isdir, Os.listdir.
  destruct (Os.stat n p) as [[c | es] | e]; try done. by eexists.
Qed.

Lemma contribution_isdir (w : world) (r d : string) :
  d ∈ contribution self w r → Os.isdir (fs w) d = true.
Proof.
  unfold contribution.
  destruct (Os.listdir (fs w) (Os.join r (target self))) as [names | e];
    [| by intros ?%elem_of_nil].
  intros (s & -> & Hs)%list_elem_of_fmap.
  by apply kept_names_spec in Hs as (_ & Hd & _).
Qed.

Lemma discovered_isdir (w : world) (rundirs : list string) (d : string) :
  d ∈ flat_map (contribution self w) rundirs → Os.isdir (fs w) d = true.
Proof.
  rewrite list_elem_of_In, in_flat_map.
  intros (r & _ & Hd). apply (contribution_isdir w r).
  by apply list_elem_of_In.
Qed.

(** The body of the first loop raises on a root that holds something other
    than a directory under the name of the target. *)
Lemma discover_bad (w : world) (rundirs : list string) :
  Exists (λ r, Os.exists_ (fs w) (Os.join r (target self)) = true
               ∧ Os.isdir (fs w) (Os.join r (target self)) = false) rundirs →
  ∀ (acc : list string) (w0 : world), fs w0 = fs w →
    ∃ w', for_fold rundirs acc (λ (instance_dirs : list string) rundir,
      let targetdir := Os.join rundir (target self) in
      found <- path_exists targetdir;
      if (found : bool) then
        subdirs <- listdir targetdir;
        for_fold subdirs instance_dirs (λ instance_dirs subdir,
          let instancedir := Os.join targetdir subdir in
          d <- path_isdir instancedir;
          if (d : bool) && selected (instances self) subdir
          then ret (instance_dirs ++ [instancedir])%list
          else ret instance_dirs)
      else
        _ <- log_warning (missing_warning rundir (target self));
        ret instance_dirs) w0
    = (Raise NotADirectoryError, w').
Proof.
  induction rundirs as [|r rundirs IH]; intros Hex acc w0 Hfs.
  { by apply Exists_nil in Hex. }
  cbn [for_fold]. unfold bind at 1. unfold bind at 1.
  unfold path_exists at 1, lift_fs. rewrite Hfs.
  destruct (Os.exists_ (fs w) (Os.join r (target self))) eqn:Hexi.
  - unfold bind at 1. unfold listdir at 1, lift_fs. rewrite Hfs.
    unfold Os.listdir. unfold Os.exists_ in Hexi.
    destruct (Os.stat (fs w) (Os.join r (target self))) as [[c | es] | e]
      eqn:Est; [by eexists | | done].
    rewrite subdirs_loop. apply IH; [|done].
    apply Exists_cons in Hex as [[_ Hd] | Hex]; [|done].
    unfold Os.isdir in Hd. by rewrite Est in Hd.
  - unfold bind at 1, log_warning at 1, ret at 1. apply IH; [|done].
    apply Exists_cons in Hex as [[He _] | Hex]; [congruence | done].
Qed.

(** X8.  [discover] returns exactly when every run root either has nothing
    under the name of the target or has a directory there; every path it
    returns is then a directory; and when it does not return, what it raises
    is [NotADirectoryError], from listing a regular file. *)
Theorem discover_returns_iff (rundirs : list string) (w : world) :
  ((∃ dirs w', discover self rundirs w = (Ok dirs, w'))
   ↔ ∀ r, r ∈ rundirs →
       Os.exists_ (fs w) (Os.join r (target self)) = false
       ∨ Os.isdir (fs w) (Os.join r (target self)) = true)
  ∧ (∀ dirs w', discover self rundirs w = (Ok dirs, w') →
       fs w' = fs w ∧ ∀ d, d ∈ dirs → Os.isdir (fs w') d = true)
  ∧ (∀ e w', discover self rundirs w = (Raise e, w') →
       e = NotADirectoryError).
Proof.
  set (good := λ r, Os.exists_ (fs w) (Os.join r (target self)) = false
                    ∨ Os.isdir (fs w) (Os.join r (target self)) = true).
  set (bad := λ r, Os.exists_ (fs w) (Os.join r (target self)) = true
                   ∧ Os.isdir (fs w) (Os.join r (target self)) = false).
  assert (Forall good rundirs ∨ Exists bad rundirs) as Hcases.
  { clear. induction rundirs as [|r rundirs [IH | IH]].
    - left. constructor.
    - subst good bad.
      destruct (Os.exists_ (fs w) (Os.join r (target self))) eqn:E1;
        destruct (Os.isdir (fs w) (Os.join r (target self))) eqn:E2.
      + left. constructor; [right; done | done].
      + right. apply Exists_cons_hd. by rewrite E1, E2.
      + left. constructor; [left; done | done].
      + left. constructor; [left; done | done].
    - right. by apply Exists_cons_tl. }
  assert (Forall good rundirs →
          discover self rundirs w
          = (Ok (flat_map (contribution self w) rundirs),
             add_logs (missing_warnings self w rundirs) w)) as Hgood.
  { intros Hg. rewrite Forall_forall in Hg.
    exact (discover_loop self w rundirs Hg [] w eq_refl). }
  assert (Exists bad rundirs →
          ∃ w', discover self rundirs w = (Raise NotADirectoryError, w'))
    as Hbad.
  { intros Hb. exact (discover_bad w rundirs Hb [] w eq_refl). }
  split; [|split].
  - split.
    + intros (dirs & w' & E). destruct Hcases as [Hg | Hb].
      * by apply Forall_forall.
      * destruct (Hbad Hb) as [w'' E']. congruence.
    + intros Hg. apply Forall_forall in Hg. rewrite (Hgood Hg).
      by eexists _, _.
  - intros dirs w' E. destruct Hcases as [Hg | Hb].
    + rewrite (Hgood Hg) in E. injection E as <- <-.
      split; [done |]. intros d Hd. simpl. by eapply discovered_isdir.
    + destruct (Hbad Hb) as [w'' E']. congruence.
  - intros e w' E. destruct Hcases as [Hg | Hb].
    + rewrite (Hgood Hg) in E. done.
    + destruct (Hbad Hb) as [w'' E']. congruence.
Qed.

Section Both.

Variable pformat : gmap string string → string.
Variable items_of : string → list item.

(** X9.  [parse_rundirs] from end to end: when every run root lacks the
    target or has a directory for it, and the entries of the instance
    directories found are files of well-formed lines, it returns, having
    logged one warning for each root without the target and printed, for
    each file of each instance directory in turn, its path and its record;
    the file system is the same afterwards. *)
Theorem parse_rundirs_reports (rundirs : list string) (w : world) :
  sys_stdout w = Console →
  (∀ r, r ∈ rundirs →
     Os.exists_ (fs w) (Os.join r (target self)) = false
     ∨ Os.isdir (fs w) (Os.join r (target self)) = true) →
  (∀ d p, d ∈ flat_map (contribution self w) rundirs → p ∈ listed w d →
          readable w items_of p) →
  ∃ w', parse_rundirs pformat self rundirs w = (Ok tt, w')
        ∧ console w'
          = console w
            ++ String.concat ""
                 (map (λ p, file_report pformat p (record_of (items_of p)))
                    (flat_map (listed w)
                       (flat_map (contribution self w) rundirs)))
        ∧ log w'
          = (log w ++ missing_warnings self w rundirs
             ++ flat_map
                  (λ p, duplicate_warnings p
                          (repeats [] (entries_of (items_of p)).*1))
                  (flat_map (listed w)
                     (flat_map (contribution self w) rundirs)))%list
        ∧ fs w' = fs w.
Proof.
  intros Hout Hroots Hfiles.
  unfold parse_rundirs, bind.
  rewrite (discover_loop self w rundirs Hroots [] w eq_refl : discover self rundirs w = _).
  set (w0 := add_logs (missing_warnings self w rundirs) w).
  rewrite (collect_dirs pformat self items_of w
             (flat_map (contribution self w) rundirs)); [| | done | done | done].
  - eexists. split; [done |]. split; [|split].
    + by rewrite after_files_console.
    + rewrite after_files_log. subst w0. simpl. by rewrite <- app_assoc.
    + by destruct (after_files_fs pformat items_of
                     (flat_map (listed w)
                        (flat_map (contribution self w) rundirs)) w0)
        as [-> _].
  - intros d Hd. apply isdir_listdir. by eapply discovered_isdir.
Qed.

End Both.

End Walk.

Lemma parse_rundirs_reports_witness :
  ∃ w', BenchmarkReporter.parse_rundirs More.show Sample.reporter
          ["run"; "old"] More.tidy = (Ok tt, w')
        ∧ console w'
          = console More.tidy
            ++ String.concat ""
                 (map (λ p, file_report More.show p
                              (record_of (More.tidy_items p)))
                    (flat_map (listed More.tidy)
                       (flat_map (contribution Sample.reporter More.tidy)
                          ["run"; "old"])))
        ∧ log w'
          = (log More.tidy
             ++ missing_warnings Sample.reporter More.tidy ["run"; "old"]
             ++ flat_map
                  (λ p, duplicate_warnings p
                          (repeats [] (entries_of (More.tidy_items p)).*1))
                  (flat_map (listed More.tidy)
                     (flat_map (contribution Sample.reporter More.tidy)
                        ["run"; "old"])))%list
        ∧ fs w' = fs More.tidy.
Proof.
  apply (parse_rundirs_reports Sample.reporter More.show More.tidy_items
           ["run"; "old"] More.tidy).
  - reflexivity.
  - intros r [-> | [-> | []%elem_of_nil]%elem_of_cons]%elem_of_cons.
    + right. vm_compute. reflexivity.
    + left. vm_compute. reflexivity.
  - intros d p Hd Hp.
    assert (flat_map (contribution Sample.reporter More.tidy) ["run"; "old"]
            = ["run/spec2006/clang"]) as Ed by (vm_compute; reflexivity).
    rewrite Ed in Hd. apply elem_of_cons in Hd as [-> | []%elem_of_nil].
    assert (listed More.tidy "run/spec2006/clang"
            = ["run/spec2006/clang/mcf"; "run/spec2006/clang/bzip2"]) as E
      by (vm_compute; reflexivity).
    rewrite E in Hp.
    apply elem_of_cons in Hp as [-> | Hp];
      [| apply elem_of_cons in Hp as [-> | []%elem_of_nil]].
    + split; vm_compute; reflexivity.
    + split; vm_compute; reflexivity.
Defined.

(** What [parse_rundirs] prints and logs on the sample. *)
Example parse_rundirs_tidy :
  BenchmarkReporter.parse_rundirs More.show Sample.reporter ["run"; "old"]
    More.tidy
  = (Ok tt,
     add_logs
       [(WARNING, "rundir old contains no results for target spec2006")]
       (set_console
          ("file: run/spec2006/clang/mcf" ++ Py.nl ++ Py.nl
           ++ "file: run/spec2006/clang/bzip2" ++ Py.nl
           ++ "status=ok" ++ Py.nl) More.tidy)).
Proof. vm_compute. reflexivity. Qed.

(** ** More on the runner *)

Section FooterMore.

Import BenchmarkRunner.

Variable derive : context → string → string → list (string * string).

(** X10.  [_print_footer] writes the footer or nothing at all: when it
    returns, the footer stands at the end of the output file of the job, on
    the terminal, or at the end of the run log, as the job has it; when it
    raises, the file system, the terminal and the reporter's stream are as
    before, so that an output file that cannot be read is not created. *)
Theorem print_footer_all_or_nothing (self : t) (j : job) (w : world) :
  sys_stdout w = Console →
  match _print_footer derive self j w with
  | (Ok _, w') =>
      match job_outfile j with
      | Some p =>
          ∃ c, file_content w p = Some c
               ∧ file_content w' p = Some (c ++ footer_text derive self c)
      | None =>
          if teeout j
          then console w' = console w ++ footer_text derive self (stdout j)
          else file_content w' (runlog (ctx self))
               = Some (default "" (file_content w (runlog (ctx self)))
                       ++ footer_text derive self (stdout j))
      end
  | (Raise e, w') => fs w' = fs w ∧ console w' = console w ∧ sink w' = sink w
  end.
Proof.
  intros Hstd. destruct (job_outfile j) as [p |] eqn:Hout.
  - destruct (file_content w p) as [c |] eqn:Hc.
    + destruct (print_footer_file derive self j w p c Hout Hc)
        as (n & Happ & -> & Hr).
      exists c. split; [done |]. by rewrite file_content_read_at.
    + unfold _print_footer. rewrite Hout.
      unfold bind, log_debug, open_read, lift_fs. simpl.
      unfold file_content in Hc. by destruct (Os.read (fs w) p).
  - destruct (teeout j) eqn:Htee.
    + rewrite (print_footer_tee derive self j w Hout Htee).
      unfold sys_write. by rewrite Hstd.
    + destruct (Os.append (fs w) (runlog (ctx self)) "") as [n | e] eqn:Happ.
      * destruct (append_any_text _ _ (footer_text derive self (stdout j))
                    _ _ Happ) as (n2 & Happ2).
        rewrite (print_footer_runlog derive self j w n2 Hout Htee Happ2).
        rewrite !file_content_read_at. by apply append_at_created.
      * unfold _print_footer. rewrite Hout, Htee.
        unfold bind, open_append, update_fs. by rewrite Happ.
Qed.

End FooterMore.

Lemma print_footer_all_or_nothing_witness :
  match BenchmarkRunner._print_footer Sample.derive Sample.runner
          Sample.bzip2_job Sample.bzip2_world with
  | (Ok _, w') =>
      ∃ c, file_content Sample.bzip2_world "out" = Some c
           ∧ file_content w' "out"
             = Some (c ++ footer_text Sample.derive Sample.runner c)
  | (Raise e, w') =>
      fs w' = fs Sample.bzip2_world
      ∧ console w' = console Sample.bzip2_world
      ∧ sink w' = sink Sample.bzip2_world
  end.
Proof.
  exact (print_footer_all_or_nothing Sample.derive Sample.runner
           Sample.bzip2_job Sample.bzip2_world eq_refl).
Defined.

Section InitMore.

Local Arguments String.append : simpl nomatch.
Import BenchmarkRunner.





End InitMore.


(** ** The choice of benchmarks *)

Section Benchmarks.

Import Spec2006.

Variable benchmarks : gmap string (list string).
Variable exclude : option (string → bool).

Lemma add_set_cons (acc : gset string) (b : string) (benches : list string) :
  add_set exclude acc (b :: benches)
  = add_set exclude (if wanted exclude b then {[b]} ∪ acc else acc) benches.
Proof. done. Qed.

Lemma add_set_spec (benches : list string) :
  ∀ (acc : gset string) (x : string),
    x ∈ add_set exclude acc benches
    ↔ x ∈ acc ∨ (x ∈ benches ∧ wanted exclude x = true).
Proof.
  induction benches as [|b benches IH]; intros acc x.
  - simpl. rewrite elem_of_nil. tauto.
  - rewrite add_set_cons, IH, elem_of_cons. destruct (wanted exclude b) eqn:E.
    + rewrite elem_of_union, elem_of_singleton. split.
      * intros [[-> | H] | [H1 H2]]; [right; split; [by left | done] |
          by left | right; split; [by right | done]].
      * intros [H | [[-> | H1] H2]]; [left; by right | left; by left |
          right; done].
    + split.
      * intros [H | [H1 H2]]; [by left | right; split; [by right | done]].
      * intros [H | [[-> | H1] H2]]; [by left | congruence | right; done].
Qed.

Lemma add_sets_found (bsets : list string) :
  ∀ acc s : gset string,
    add_sets benchmarks exclude bsets acc = Found s →
    (∀ bset, bset ∈ bsets → is_Some (benchmarks !! bset))
    ∧ ∀ x, x ∈ s ↔ x ∈ acc ∨ from_sets benchmarks exclude bsets x.
Proof.
  induction bsets as [|b bsets IH]; intros acc s.
  - simpl. intros [= <-]. split; [by intros ? ?%elem_of_nil |].
    intros x. split; [by left |].
    intros [H | (bset & ? & []%elem_of_nil & _)]. done.
  - simpl. destruct (benchmarks !! b) as [benches |] eqn:E; [|done].
    intros (Hkeys & Hmem)%IH. split.
    + intros bset [-> | H]%elem_of_cons; [by eexists | by apply Hkeys].
    + intros x. rewrite Hmem, add_set_spec. split.
      * intros [[H | [H1 H2]] | (bset & bs & H1 & H2 & H3)].
        -- by left.
        -- right. exists b, benches. split; [by left | done].
        -- right. exists bset, bs. split; [by right | done].
      * intros [H | (bset & bs & [-> | H1]%elem_of_cons & H2 & H3)].
        -- left. by left.
        -- left. right. rewrite E in H2. by injection H2 as <-.
        -- right. by exists bset, bs.
Qed.

Lemma add_sets_total (bsets : list string) :
  (∀ bset, bset ∈ bsets → is_Some (benchmarks !! bset)) →
  ∀ acc, ∃ s, add_sets benchmarks exclude bsets acc = Found s.
Proof.
  induction bsets as [|b bsets IH]; intros Hkeys acc; [by eexists |].
  simpl. destruct (Hkeys b) as [benches ->]; [by left |].
  apply IH. intros bset H. apply Hkeys. by right.
Qed.

Lemma add_sets_keyerror (bsets : list string) (k : string) :
  ∀ acc,
    add_sets benchmarks exclude bsets acc = KeyError k
    ↔ ∃ pre post, bsets = (pre ++ k :: post)%list
                  ∧ benchmarks !! k = None
                  ∧ ∀ x, x ∈ pre → is_Some (benchmarks !! x).
Proof.
  induction bsets as [|b bsets IH]; intros acc.
  - simpl. split; [done |]. intros (pre & post & H & _). by destruct pre.
  - simpl. destruct (benchmarks !! b) as [benches |] eqn:E.
    + rewrite IH. split.
      * intros (pre & post & -> & Hk & Hpre).
        exists (b :: pre), post. split; [done |]. split; [done |].
        intros x [-> | H]%elem_of_cons; [by eexists | by apply Hpre].
      * intros (pre & post & Heq & Hk & Hpre).
        destruct pre as [|p pre].
        -- simpl in Heq. injection Heq as -> ->. congruence.
        -- simpl in Heq. injection Heq as -> ->.
           exists pre, post. split; [done |]. split; [done |].
           intros x H. apply Hpre. by right.
    + split.
      * intros [= <-]. exists [], bsets. split; [done |]. split; [done |].
        by intros ? ?%elem_of_nil.
      * intros (pre & post & Heq & Hk & Hpre).
        destruct pre as [|p pre].
        -- simpl in Heq. by injection Heq as -> ->.
        -- simpl in Heq. injection Heq as -> ->.
           destruct (Hpre p) as [? Hp]; [by left |]. congruence.
Qed.



(** X13.  [_get_benchmarks] raises [KeyError] exactly when a name is not a
    key of the dictionary, and the key it reports is the first such name;
    no benchmark is returned then. *)
Theorem get_benchmarks_keyerror (bsets : list string) (k : string) :
  _get_benchmarks benchmarks bsets exclude = KeyError k
  ↔ ∃ pre post, bsets = (pre ++ k :: post)%list
                ∧ benchmarks !! k = None
                ∧ ∀ x, x ∈ pre → is_Some (benchmarks !! x).
Proof.
  rewrite <- (add_sets_keyerror bsets k ∅). unfold _get_benchmarks.
  destruct (add_sets benchmarks exclude bsets ∅); split; congruence.
Qed.

(** X14.  Neither the order of the names nor naming a set twice matters: two
    lists of names with the same members give the same list of benchmarks. *)
Theorem get_benchmarks_order_irrelevant (bsets bsets' : list string)
    (l : list string) :
  (∀ x, x ∈ bsets ↔ x ∈ bsets') →
  _get_benchmarks benchmarks bsets exclude = Found l →
  _get_benchmarks benchmarks bsets' exclude = Found l.
Proof.
  intros Hsame. unfold _get_benchmarks.
  destruct (add_sets benchmarks exclude bsets ∅) as [s | k] eqn:Hs; [|done].
  intros [= <-].
  destruct (add_sets_found bsets ∅ s Hs) as [Hkeys Hmem].
  destruct (add_sets_total bsets') with (acc := (∅ : gset string))
    as [s' Hs'].
  { intros bset H. apply Hkeys. by apply Hsame. }
  rewrite Hs'. destruct (add_sets_found bsets' ∅ s' Hs') as [_ Hmem'].
  f_equal. f_equal. apply leibniz_equiv, set_equiv. intros x.
  rewrite Hmem, Hmem'. unfold from_sets.
  split; intros [H | (bset & bs & H1 & H2)]; try by left.
  - right. exists bset, bs. split; [by apply Hsame | done].
  - right. exists bset, bs. split; [by apply Hsame | done].
Qed.

End Benchmarks.


Lemma get_benchmarks_order_irrelevant_witness :
  ∃ l, Spec2006._get_benchmarks Spec2006.benchmarks ["c++"; "c"; "c"] None
       = Spec2006.Found l
       ∧ Spec2006._get_benchmarks Spec2006.benchmarks ["c"; "c++"] None
         = Spec2006.Found l.
Proof.
  eexists. split.
  - apply (get_benchmarks_order_irrelevant Spec2006.benchmarks None
             ["c"; "c++"] ["c++"; "c"; "c"]).
    + intros x. rewrite !elem_of_cons, elem_of_nil. tauto.
    + vm_compute. reflexivity.
  - vm_compute. reflexivity.
Defined.

(** The language sets of the older file cover the same benchmarks as [int]
    with [fp], and as [all]. *)
Example get_benchmarks_languages :
  Spec2006._get_benchmarks Spec2006.benchmarks ["c"; "c++"; "fortran"] None
  = Spec2006.Found Spec2006.all_set
  ∧ Spec2006._get_benchmarks Spec2006.benchmarks ["int"; "fp"] None
    = Spec2006.Found Spec2006.all_set
  ∧ Spec2006._get_benchmarks Spec2006.benchmarks ["all"] None
    = Spec2006.Found Spec2006.all_set.
Proof. vm_compute. done. Qed.

(** ** [_unindent] *)

Section UnindentFacts.

Local Arguments String.append : simpl nomatch.
Local Arguments Ascii.eqb : simpl never.
Import Unindent.

Lemma split_lines_cons (s : string) : ∃ h r, split_lines s = h :: r.
Proof.
  induction s as [|c s (h & r & IH)]; simpl; [by eexists _, _ |].
  rewrite IH. destruct (Ascii.eqb c Py.LF); by eexists _, _.
Qed.

Lemma split_lines_app (a b : string) :
  split_lines (a ++ Py.nl ++ b) = (split_lines a ++ split_lines b)%list.
Proof.
  induction a as [|c a IH]; [reflexivity |].
  simpl. change (String Py.LF b) with (Py.nl ++ b).
  rewrite IH. destruct (Ascii.eqb c Py.LF); [done |].
  by destruct (split_lines_cons a) as (h & r & ->).
Qed.

Lemma split_lines_one (s : string) :
  one_line s = true → split_lines s = [s].
Proof.
  induction s as [|c s IH]; simpl; [done |].
  intros [Hc Hs]%andb_prop. apply negb_true_iff in Hc. rewrite Hc.
  by rewrite (IH Hs).
Qed.

Lemma join_lines_cons (l : string) (ls : list string) :
  ls ≠ [] → join_lines (l :: ls) = l ++ Py.nl ++ join_lines ls.
Proof. by destruct ls. Qed.

Lemma split_join (ls : list string) :
  ls ≠ [] → forallb one_line ls = true →
  split_lines (join_lines ls) = ls.
Proof.
  induction ls as [|l ls IH]; [done |]. intros _ Hall.
  simpl in Hall. apply andb_prop in Hall as [Hl Hls].
  destruct ls as [|l' ls].
  - simpl. by apply split_lines_one.
  - rewrite join_lines_cons by done.
    rewrite split_lines_app, (split_lines_one _ Hl), IH; done.
Qed.

Lemma lead_spaces (k : nat) (b : string) :
  lead (spaces k ++ b) = (k + lead b)%nat.
Proof. induction k as [|k IH]; simpl; [done | by rewrite IH]. Qed.

Lemma length_spaces (k : nat) : String.length (spaces k) = k.
Proof. induction k as [|k IH]; simpl; [done | by rewrite IH]. Qed.

Lemma one_line_spaces (k : nat) : one_line (spaces k) = true.
Proof. induction k as [|k IH]; simpl; done. Qed.

Lemma all_spaces_spaces (k : nat) : all_spaces (spaces k) = true.
Proof.
  unfold all_spaces. rewrite <- (append_nil_r (spaces k)) at 1.
  rewrite lead_spaces, length_spaces. simpl. apply Nat.eqb_eq. lia.
Qed.

Lemma slice_spaces (k : nat) (b : string) :
  Py.slice_from k (spaces k ++ b) = b.
Proof. induction k as [|k IH]; simpl; done. Qed.

Lemma one_line_app (a b : string) :
  one_line (a ++ b) = one_line a && one_line b.
Proof.
  induction a as [|c a IH]; simpl; [done |]. by rewrite IH, andb_assoc.
Qed.

Lemma segment_line_one (k : nat) (g : segment) :
  segment_ok k g = true → one_line (segment_line k g) = true.
Proof.
  destruct g as [b | r]; simpl.
  - intros Hb. by rewrite one_line_app, one_line_spaces.
  - by intros [Hr _]%andb_prop.
Qed.

Lemma dedent_segment (k : nat) (g : segment) :
  segment_ok k g = true → dedent k (segment_line k g) = segment_body g.
Proof.
  destruct g as [b | r]; simpl; unfold dedent.
  - intros _. rewrite lead_spaces.
    rewrite (proj2 (Nat.leb_le k (k + lead b))) by lia.
    apply slice_spaces.
  - intros [_ Hr%Nat.ltb_lt]%andb_prop.
    by rewrite (proj2 (Nat.leb_gt k (lead r))).
Qed.

Lemma strip_tail_block (ls : list string) (prev : string) (m : nat) :
  last ls = Some prev →
  forallb one_line ls = true →
  (0 <? m)%nat || negb (all_spaces prev) = true →
  strip_tail (join_lines ls ++ Py.nl ++ spaces m) = join_lines ls.
Proof.
  intros Hlast Hone Htail.
  assert (ls ≠ []) as Hne by (intros ->; done).
  unfold strip_tail.
  rewrite split_lines_app, (split_join _ Hne Hone).
  rewrite (split_lines_one _ (one_line_spaces m)).
  rewrite rev_app_distr. simpl.
  apply last_Some in Hlast as [ls' ->].
  rewrite rev_app_distr. simpl. rewrite all_spaces_spaces.
  assert (negb (Os.nonempty (spaces m)) && all_spaces prev = false) as ->.
  { destruct m; simpl in *; [|done]. by apply negb_true_iff in Htail as ->. }
  simpl. by rewrite rev_involutive.
Qed.


Lemma last_map_segment (k : nat) (segs : list segment) (prev : string) :
  last (map (segment_line k) segs) = Some prev →
  ∃ g, last segs = Some g ∧ prev = segment_line k g.
Proof.
  intros [ls' E]%last_Some.
  destruct (last segs) as [g |] eqn:Hg.
  - exists g. split; [done |]. apply last_Some in Hg as [segs' ->].
    rewrite map_app in E. simpl in E.
    by apply app_inj_tail in E as [_ ->].
  - apply last_None in Hg as ->. by destruct ls'.
Qed.

Lemma search_indent_none (ls : list string) :
  Forall (λ l, lead l = 0%nat) ls → search_indent ls = None.
Proof. induction 1 as [|l ls Hl _ IH]; simpl; [done | by rewrite Hl]. Qed.

(** X15.  [_unindent] on a block as the target writes them, a line feed, then
    lines that carry the indentation of the first one or less, then a line
    feed and the spaces before the closing quotes: the line feed at the
    start and the blank end are dropped, every line indented like the first
    loses that indentation and no more, and a line indented less is kept as
    it is. *)
Theorem unindent_block (k m : nat) (first : string) (rest : list segment) :
  (0 < k)%nat → lead first = 0%nat →
  forallb (segment_ok k) (Indented first :: rest) = true →
  (∀ g, last (Indented first :: rest) = Some g →
        (0 <? m)%nat || negb (all_spaces (segment_line k g)) = true) →
  _unindent
    (Py.nl ++ join_lines (map (segment_line k) (Indented first :: rest))
     ++ Py.nl ++ spaces m)
  = join_lines (map segment_body (Indented first :: rest)).
Proof.
  intros Hk Hfirst Hok Htail.
  set (segs := Indented first :: rest) in *.
  set (ls := map (segment_line k) segs).
  assert (forallb one_line ls = true) as Hone.
  { subst ls. apply forallb_forall. intros l (g & <- & Hg)%in_map_iff.
    apply segment_line_one. rewrite forallb_forall in Hok. by apply Hok. }
  assert (ls ≠ []) as Hne by done.
  assert (sub_ends (Py.nl ++ join_lines ls ++ Py.nl ++ spaces m)
          = join_lines ls) as Hstrip.
  { unfold sub_ends.
    change (Py.nl ++ join_lines ls ++ Py.nl ++ spaces m)
      with (String Py.LF (join_lines ls ++ Py.nl ++ spaces m)).
    cbv iota. rewrite Ascii.eqb_refl.
    destruct (last ls) as [prev |] eqn:Hlast.
    - apply (strip_tail_block ls prev m Hlast Hone).
      destruct (last_map_segment k segs prev Hlast) as (g & Hg & ->).
      by apply Htail.
    - by apply last_None in Hlast. }
  unfold _unindent. cbv zeta. rewrite Hstrip, (split_join _ Hne Hone).
  assert (search_indent ls = Some k) as ->.
  { subst ls segs. cbn [map segment_line search_indent].
    rewrite lead_spaces, Hfirst, Nat.add_0_r. by destruct k; [lia |]. }
  f_equal. subst ls. rewrite map_map. apply map_ext_in.
  intros g Hg. apply dedent_segment. rewrite forallb_forall in Hok.
  by apply Hok.
Qed.

(** X16.  [_unindent] leaves a text alone that has nothing to drop: no line
    starts with a space, and the first and the last line are not empty. *)
Theorem unindent_plain (ls : list string) :
  forallb one_line ls = true →
  Forall (λ l, lead l = 0%nat) ls →
  head ls ≠ Some "" → last ls ≠ Some "" → ls ≠ [] →
  _unindent (join_lines ls) = join_lines ls.
Proof.
  intros Hone Hlead Hhead Hlast Hne.
  assert (sub_ends (join_lines ls) = join_lines ls) as Hstrip.
  { unfold sub_ends.
    assert (match join_lines ls with
            | "" => ""
            | String c t => if Ascii.eqb c Py.LF then t else join_lines ls
            end = join_lines ls) as ->.
    { destruct ls as [|l ls]; [done |].
      destruct l as [|c l]; [done |].
      simpl in Hone. apply andb_prop in Hone as [[Hc _]%andb_prop _].
      apply negb_true_iff in Hc.
      destruct ls; simpl; unfold join_lines; simpl; by rewrite Hc. }
    unfold strip_tail. rewrite (split_join _ Hne Hone).
    destruct (rev ls) as [|l1 [|l2 r]] eqn:E; [done | done |].
    assert (last ls = Some l1) as Hl1.
    { rewrite <- (rev_involutive ls), E. simpl. apply last_snoc. }
    assert (lead l1 = 0%nat) as Hz.
    { rewrite Forall_forall in Hlead. apply Hlead.
      apply last_Some in Hl1 as [ls' ->]. apply elem_of_app. right.
      by left. }
    unfold all_spaces. rewrite Hz.
    destruct l1; [congruence | done]. }
  unfold _unindent. cbv zeta.
  by rewrite Hstrip, (split_join _ Hne Hone), (search_indent_none _ Hlead).
Qed.

End UnindentFacts.

Lemma unindent_block_witness :
  Unindent._unindent
    (Py.nl
     ++ Unindent.join_lines
          (map (Unindent.segment_line 4)
             [Unindent.Indented "cd /spec/install";
              Unindent.Indented "source shrc";
              Unindent.Indented "runspec --config=infra-clang ";
              Unindent.Raw "  401.bzip2"])
     ++ Py.nl ++ Unindent.spaces 4)
  = Unindent.join_lines
      (map Unindent.segment_body
         [Unindent.Indented "cd /spec/install";
          Unindent.Indented "source shrc";
          Unindent.Indented "runspec --config=infra-clang ";
          Unindent.Raw "  401.bzip2"]).
Proof.
  apply (unindent_block 4 4 "cd /spec/install").
  - lia.
  - reflexivity.
  - reflexivity.
  - intros g _. reflexivity.
Defined.

Lemma unindent_plain_witness :
  Unindent._unindent (Unindent.join_lines ["cd /spec/install"; ""; "ls"])
  = Unindent.join_lines ["cd /spec/install"; ""; "ls"].
Proof.
  apply (unindent_plain ["cd /spec/install"; ""; "ls"]).
  - reflexivity.
  - repeat constructor.
  - discriminate.
  - discriminate.
  - discriminate.
Defined.

(** ** The block [report] prints, line by line *)

Section Block.

Local Arguments String.append : simpl nomatch.

Lemma readlines_lines (ls : list string) (more : string) :
  Forall (λ l, ∃ b, l = b ++ Py.nl ∧ Py.inline b = true) ls →
  Py.readlines (String.concat "" ls ++ more)
  = (ls ++ Py.readlines more)%list.
Proof.
  induction 1 as [|l ls (b & -> & Hb) _ IH]; [done |].
  rewrite concat_empty_cons, !append_assoc.
  rewrite (readlines_line _ _ Hb), IH. done.
Qed.

Lemma concat_empty_app (xs ys : list string) :
  String.concat "" (xs ++ ys)
  = String.concat "" xs ++ String.concat "" ys.
Proof.
  induction xs as [|x xs IH]; [done |].
  change ((x :: xs) ++ ys)%list with (x :: (xs ++ ys))%list.
  by rewrite !concat_empty_cons, IH, append_assoc.
Qed.

(** The block as the sequence of its lines. *)
Lemma report_text_lines (runner : BenchmarkRunner.t)
    (data : list (string * string)) :
  report_text runner data
  = String.concat ""
      (begin_line
       :: kv_line "target" (BenchmarkRunner.target runner)
       :: kv_line "instance" (BenchmarkRunner.instance runner)
       :: map (λ kv, kv_line kv.1 kv.2) data ++ [end_line])%list.
Proof.
  unfold report_text.
  rewrite !concat_empty_cons, concat_empty_app, concat_empty_cons.
  simpl (String.concat "" []). by rewrite append_nil_r.
Qed.

(** X17.  What [report] prints is one block, written in one piece to whatever
    the standard output is bound to.  When the names, keys and values hold
    no line terminator, the block reads as the begin marker, the target, the
    instance, one line for each entry in the order of the record, and the
    end marker, each line starting with the prefix: four lines more than
    the record has entries. *)
Theorem report_block (runner : BenchmarkRunner.t)
    (data : list (string * string)) (w : world) :
  Py.inline (BenchmarkRunner.target runner) = true →
  Py.inline (BenchmarkRunner.instance runner) = true →
  forallb (λ kv, Py.inline kv.1 && Py.inline kv.2) data = true →
  BenchmarkRunner.report runner data w
  = sys_write (report_text runner data) w
  ∧ Py.readlines (report_text runner data)
    = (begin_line
       :: kv_line "target" (BenchmarkRunner.target runner)
       :: kv_line "instance" (BenchmarkRunner.instance runner)
       :: map (λ kv, kv_line kv.1 kv.2) data ++ [end_line])%list
  ∧ Forall (λ l, Py.startswith l prefix = true)
      (Py.readlines (report_text runner data))
  ∧ length (Py.readlines (report_text runner data)) = (length data + 4)%nat.
Proof.
  intros Ht Hi Hdata. split; [apply report_writes |].
  assert (Py.readlines (report_text runner data)
          = (begin_line
             :: kv_line "target" (BenchmarkRunner.target runner)
             :: kv_line "instance" (BenchmarkRunner.instance runner)
             :: map (λ kv, kv_line kv.1 kv.2) data ++ [end_line])%list) as E.
  { rewrite report_text_lines at 1.
    rewrite <- (append_nil_r (String.concat "" _)), readlines_lines.
    - apply app_nil_r.
    - repeat apply Forall_cons_2.
      + by exists (prefix ++ " begin").
      + eexists. split; [apply kv_line_eq |].
        by rewrite !inline_app, Ht.
      + eexists. split; [apply kv_line_eq |].
        by rewrite !inline_app, Hi.
      + apply Forall_app. split.
        * rewrite forallb_forall in Hdata. apply Forall_forall.
          intros l ([k v] & -> & Hin)%list_elem_of_fmap.
          apply list_elem_of_In, Hdata in Hin as [Hk Hv]%andb_prop.
          simpl in *. eexists. split; [apply kv_line_eq |].
          by rewrite !inline_app, Hk, Hv.
        * apply Forall_cons_2; [| constructor].
          by exists (prefix ++ " end"). }
  split; [exact E |]. split.
  - rewrite E. repeat (apply Forall_cons; split; [by rewrite ?kv_line_eq,
      <- ?append_assoc, ?startswith_refl_app |]).
    apply Forall_app. split; [| by repeat constructor].
    apply Forall_forall. intros l ([k v] & -> & _)%list_elem_of_fmap.
    rewrite kv_line_eq. apply startswith_app_l, startswith_refl_app.
  - rewrite E. simpl. rewrite length_app, length_map. simpl. lia.
Qed.

End Block.

Lemma report_block_witness :
  BenchmarkRunner.report Sample.runner Sample.data Sample.empty
  = sys_write (report_text Sample.runner Sample.data) Sample.empty
  ∧ Py.readlines (report_text Sample.runner Sample.data)
    = (begin_line
       :: kv_line "target" "spec2006"
       :: kv_line "instance" "clang"
       :: map (λ kv, kv_line kv.1 kv.2) Sample.data ++ [end_line])%list
  ∧ Forall (λ l, Py.startswith l prefix = true)
      (Py.readlines (report_text Sample.runner Sample.data))
  ∧ length (Py.readlines (report_text Sample.runner Sample.data))
    = (length Sample.data + 4)%nat.
Proof.
  apply (report_block Sample.runner Sample.data Sample.empty); reflexivity.
Defined.
